(** * 1lang1server / c-server: the request pipeline of [HTTPServer.c]

    A shallow embedding of [launch], [request_handler] and
    [connect_to_backend], together with the C library calls they make, and the
    properties of the router, the static responder and the proxy responder.

    Conventions.
    - A [char *] is a [string]: the bytes stored at the pointer.  The code only
      ever looks at such memory through the C string functions, which stop at
      the first NUL byte; [c_str] is that reading.
    - An [int] is a [Z]; a [size_t] and every [sizeof] is a [nat].
    - System calls act on a [State] (descriptor table and call trace) and
      take their outcome from an environment [Env]; C undefined behaviour
      (writing or reading outside an array) is the outcome [Undefined]. *)

From Stdlib Require Import String Ascii List ZArith Lia Bool Arith DecimalString.
Import ListNotations.
Local Open Scope string_scope.

(** ** Bytes and C strings *)

Definition NUL : ascii := "000"%char.
Definition CR : ascii := "013"%char.
Definition LF : ascii := "010"%char.
Definition CRLF : string := String CR (String LF "").

(** The C string stored in [buf]: its bytes up to the first NUL. *)
Fixpoint c_str (buf : string) : string :=
  match buf with
  | "" => ""
  | String c rest => if Ascii.eqb c NUL then "" else String c (c_str rest)
  end.

(** [has_nul buf]: some byte of [buf] is NUL. *)
Fixpoint has_nul (buf : string) : bool :=
  match buf with
  | "" => false
  | String c rest => Ascii.eqb c NUL || has_nul rest
  end.

Definition strlen (s : string) : nat := String.length (c_str s).

Fixpoint take (n : nat) (s : string) : string :=
  match n, s with
  | S n', String c rest => String c (take n' rest)
  | _, _ => ""
  end.

Fixpoint drop (n : nat) (s : string) : string :=
  match n, s with
  | S n', String _ rest => drop n' rest
  | _, _ => s
  end.

Fixpoint starts_with (prefix s : string) : bool :=
  match prefix, s with
  | "", _ => true
  | String p prefix', String c s' => Ascii.eqb p c && starts_with prefix' s'
  | String _ _, "" => false
  end.

Fixpoint mem_ascii (c : ascii) (set : string) : bool :=
  match set with
  | "" => false
  | String d set' => Ascii.eqb c d || mem_ascii c set'
  end.

(** [strspn]-style skip of the leading bytes that belong to [delim]. *)
Fixpoint skip_delims (delim s : string) : string :=
  match s with
  | "" => ""
  | String c rest => if mem_ascii c delim then skip_delims delim rest else s
  end.

(** [strcspn]-style span: the bytes before the first one in [delim]. *)
Fixpoint span_token (delim s : string) : string :=
  match s with
  | "" => ""
  | String c rest => if mem_ascii c delim then "" else String c (span_token delim rest)
  end.

(** First call [strtok(s, delim)]: NULL ([None]) when [s] holds nothing but
    delimiters, the first maximal run of other bytes else. *)
Definition strtok (s delim : string) : option string :=
  match skip_delims delim s with
  | "" => None
  | s' => Some (span_token delim s')
  end.

(** [strcmp]: zero on equal strings, else the sign of the first difference. *)
Fixpoint strcmp (a b : string) : Z :=
  match a, b with
  | "", "" => 0
  | "", String _ _ => -1
  | String _ _, "" => 1
  | String c a', String d b' =>
      if Ascii.eqb c d then strcmp a' b'
      else (Z.of_nat (nat_of_ascii c) - Z.of_nat (nat_of_ascii d))%Z
  end.

(** [strstr(haystack, needle)]: the suffix of [haystack] that begins at the
    first occurrence of [needle], NULL ([None]) when there is none. *)
Fixpoint strstr (haystack needle : string) : option string :=
  if starts_with needle haystack then Some haystack
  else match haystack with
       | "" => None
       | String _ rest => strstr rest needle
       end.

(** [strdup]: a fresh copy of the C string. *)
Definition strdup (s : string) : string := c_str s.

Definition INT_MAX : Z := 2147483647.

(** [snprintf(buf, size, ...)] on the already formatted text [out]: the return
    value is the length of [out] (negative when an [int] cannot hold it), and
    [buf] receives at most [size - 1] bytes of it before the terminator. *)
Definition snprintf (size : nat) (out : string) : Z * string :=
  ((if (INT_MAX <? Z.of_nat (String.length out))%Z then -1
    else Z.of_nat (String.length out))%Z,
   take (size - 1) out).

(** [%zu]. *)
Definition fmt_zu (n : nat) : string := NilEmpty.string_of_uint (Nat.to_uint n).

(** ** Message model *)

Record HTTPRequest := {
  method : string;
  path : string;
  body : string;
  body_length : nat
}.

Record HTTPResponse := {
  status_code : Z;
  status_text : string;
  response_body : string
}.

(** Modelled from the spec: [response_builder] is called by
    [request_handler] but defined outside [HTTPServer.c].  The spec gives a response a status code,
    a status text and a body owned independently of any source buffer, so the
    builder copies its three arguments; a [char *body] argument is the C
    string found at the pointer. *)
Definition response_builder (code : Z) (text body : string) : HTTPResponse :=
  {| status_code := code; status_text := text; response_body := body |}.

(** ** Operating system: descriptors, calls and their outcomes *)

Inductive descriptor :=
| FileDesc (content : string)
| SocketDesc.

Inductive ai_family_t := AF_INET | AF_INET6 | AF_UNSPEC.
Inductive ai_socktype_t := SOCK_STREAM | SOCK_DGRAM.

Record addrinfo := {
  ai_family : ai_family_t;
  ai_socktype : ai_socktype_t
}.

Inductive event :=
| EvAccess (filepath : string)
| EvOpen (filepath : string) (result : Z)
| EvRead (fd : Z)
| EvClose (fd : Z)
| EvGetaddrinfo (host port : string) (hints : addrinfo)
| EvFreeaddrinfo
| EvSocket (family : ai_family_t) (socktype : ai_socktype_t) (result : Z)
| EvConnect (fd : Z)
| EvSend (fd : Z) (bytes : string)
| EvRecv (fd : Z)
| EvBind
| EvListen
| EvAccept (result : Z)
| EvWrite (fd : Z) (bytes : string).

Inductive file_state :=
| NoEntry
| NoPermission
| Regular (content : string).

(** What the machine answers during one call of [request_handler]. *)
Record Env := {
  realpath : string -> option string;   (* NULL is [None] *)
  fs : string -> file_state;
  open_fd : option nat;                 (* descriptor [open] hands out; [None]: none is free *)
  stack_bytes : string;                 (* bytes lying in the automatic [buffer] on entry *)
  getaddrinfo_result : Z;
  socket_fd : option nat;               (* descriptor [socket] hands out; [None]: it fails *)
  connect_result : Z;
  recv_data : option string             (* bytes the backend delivers; [None]: [recv] fails *)
}.

Record State := {
  fds : list (Z * descriptor);          (* descriptors open in this process *)
  trace : list event                    (* calls made so far, oldest first *)
}.

Definition initial_state : State := {| fds := []; trace := [] |}.

Inductive outcome (A : Type) :=
| Done (a : A)
| Undefined (why : string).
Arguments Done {A} a.
Arguments Undefined {A} why.

Definition M (A : Type) : Type := State -> outcome A * State.

Definition ret {A} (a : A) : M A := fun s => (Done a, s).

Definition bind {A B} (m : M A) (k : A -> M B) : M B :=
  fun s => match m s with
           | (Done a, s') => k a s'
           | (Undefined why, s') => (Undefined why, s')
           end.

Definition undefined {A} (why : string) : M A := fun s => (Undefined why, s).

Notation "x <- m ;; k" := (bind m (fun x => k))
  (at level 61, m at next level, right associativity).
Notation "m ;;; k" := (bind m (fun _ => k))
  (at level 61, right associativity).

Definition emit (e : event) : M unit :=
  fun s => (Done tt, {| fds := fds s; trace := trace s ++ [e] |}).

Definition add_fd (fd : Z) (d : descriptor) : M unit :=
  fun s => (Done tt, {| fds := (fd, d) :: fds s; trace := trace s |}).

Definition remove_fd (fd : Z) : M unit :=
  fun s => (Done tt, {| fds := filter (fun p => negb (fst p =? fd)%Z) (fds s);
                        trace := trace s |}).

Fixpoint lookup_fd (fd : Z) (table : list (Z * descriptor)) : option descriptor :=
  match table with
  | [] => None
  | (k, d) :: rest => if (k =? fd)%Z then Some d else lookup_fd fd rest
  end.

Definition get_fd (fd : Z) : M (option descriptor) :=
  fun s => (Done (lookup_fd fd (fds s)), s).

(** [access(filepath, R_OK)]. *)
Definition sys_access (e : Env) (filepath : string) : M Z :=
  emit (EvAccess filepath) ;;;
  ret (match fs e filepath with Regular _ => 0 | _ => -1 end)%Z.

(** [open(filepath, O_RDONLY)]. *)
Definition sys_open (e : Env) (filepath : string) : M Z :=
  match fs e filepath, open_fd e with
  | Regular content, Some n =>
      emit (EvOpen filepath (Z.of_nat n)) ;;;
      add_fd (Z.of_nat n) (FileDesc content) ;;;
      ret (Z.of_nat n)
  | _, _ => emit (EvOpen filepath (-1)) ;;; ret (-1)%Z
  end.

(** Writing [data] at the start of the array [buf]. *)
Definition overwrite (data buf : string) : string :=
  data ++ drop (String.length data) buf.

(** [read(fd, buf, size)]: the count and the array afterwards. *)
Definition sys_read (fd : Z) (buf : string) (size : nat) : M (Z * string) :=
  emit (EvRead fd) ;;;
  d <- get_fd fd ;;
  match d with
  | Some (FileDesc content) =>
      ret (Z.of_nat (String.length (take size content)),
           overwrite (take size content) buf)
  | _ => ret ((-1)%Z, buf)
  end.

Definition sys_close (fd : Z) : M Z :=
  emit (EvClose fd) ;;; remove_fd fd ;;; ret 0%Z.

(** [getaddrinfo(host, port, &hints, &res)]: the entry found obeys [hints]. *)
Definition getaddrinfo (e : Env) (host port : string) (hints : addrinfo)
  : M (Z * addrinfo) :=
  emit (EvGetaddrinfo host port hints) ;;;
  ret (getaddrinfo_result e, hints).

Definition freeaddrinfo : M unit := emit EvFreeaddrinfo.

Definition sys_socket (e : Env) (family : ai_family_t) (socktype : ai_socktype_t)
  : M Z :=
  match socket_fd e with
  | Some n =>
      emit (EvSocket family socktype (Z.of_nat n)) ;;;
      add_fd (Z.of_nat n) SocketDesc ;;;
      ret (Z.of_nat n)
  | None => emit (EvSocket family socktype (-1)) ;;; ret (-1)%Z
  end.

Definition sys_connect (e : Env) (fd : Z) : M Z :=
  emit (EvConnect fd) ;;; ret (connect_result e).

(** [send(fd, buf, len, 0)] on the [len] bytes actually handed over. *)
Definition sys_send (fd : Z) (bytes : string) : M Z :=
  emit (EvSend fd bytes) ;;; ret (Z.of_nat (String.length bytes)).

(** [recv(fd, buf, size, 0)]: the count and the bytes stored in [buf]. *)
Definition sys_recv (e : Env) (fd : Z) (size : nat) : M (Z * string) :=
  emit (EvRecv fd) ;;;
  match recv_data e with
  | Some data => ret (Z.of_nat (String.length (take size data)), take size data)
  | None => ret ((-1)%Z, "")
  end.

(** Reading an array as a C string: defined only if the array holds a NUL. *)
Definition array_c_str (arr : string) : M string :=
  if has_nul arr then ret (c_str arr)
  else undefined "string read runs past the end of the array".

(** [strncat(dest, src, n)] into an array of [capacity] bytes. *)
Definition strncat (capacity : nat) (dest src : string) (n : nat) : M string :=
  let added := take n (c_str src) in
  if (String.length dest + String.length added + 1 <=? capacity)%nat
  then ret (dest ++ added)
  else undefined "strncat writes past the end of the array".

(** [p + n] on a [char *]: defined up to the terminator of the stored bytes. *)
Definition ptr_add (p : string) (n : nat) : M string :=
  if (n <=? String.length p)%nat then ret (drop n p)
  else undefined "pointer moved past the string terminator".

(** Running a computation in a fresh process. *)
Definition run {A} (m : M A) : outcome A * State := m initial_state.

(** What the machine answers to [launch]: the outcome of [bind] and [listen]
    and the clients that connect, each with the environment its request finds. *)
Record Connection := {
  client_fd : nat;
  incoming : string;
  conn_env : Env
}.

Record Host := {
  bind_result : Z;
  listen_result : Z;
  clients : list Connection
}.

Definition sys_bind (h : Host) : M Z := emit EvBind ;;; ret (bind_result h).

Definition sys_listen (h : Host) : M Z := emit EvListen ;;; ret (listen_result h).

Definition sys_accept (c : Connection) : M Z :=
  emit (EvAccept (Z.of_nat (client_fd c))) ;;;
  add_fd (Z.of_nat (client_fd c)) SocketDesc ;;;
  ret (Z.of_nat (client_fd c)).

Definition sys_write (fd : Z) (bytes : string) : M Z :=
  emit (EvWrite fd bytes) ;;; ret (Z.of_nat (String.length bytes)).

(** [launch] either returns a code or stays in its loop, blocked in [accept]
    once the clients at hand are served. *)
Inductive launch_result :=
| Returned (code : Z)
| Accepting.

(** ** The router in the words of the specification *)

(** The first path segment as the specification defines it: the portion
    between the leading ['/'] and the next ['/']. *)
Definition spec_first_segment (p : string) : string :=
  match p with
  | String c rest => if Ascii.eqb c "/" then span_token "/" rest else ""
  | "" => ""
  end.

(** ** Concrete requests and machines *)

Definition no_files : string -> file_state := fun _ => NoEntry.

Definition one_file (name content : string) : string -> file_state :=
  fun p => if String.eqb p name then Regular content else NoEntry.

Definition locked_file (name : string) : string -> file_state :=
  fun p => if String.eqb p name then NoPermission else NoEntry.

(** A machine with the static root [/srv/www], one free descriptor and a
    backend that answers [reply]. *)
Definition machine (files : string -> file_state) (stale : string)
    (reply : option string) : Env :=
  {| realpath := fun _ => Some "/srv/www";
     fs := files;
     open_fd := Some 3;
     stack_bytes := stale;
     getaddrinfo_result := 0;
     socket_fd := Some 4;
     connect_result := 0;
     recv_data := reply |}.

(** The same machine with nothing listening on the backend port. *)
Definition machine_backend_down (files : string -> file_state) : Env :=
  {| realpath := fun _ => Some "/srv/www";
     fs := files;
     open_fd := Some 3;
     stack_bytes := "";
     getaddrinfo_result := 0;
     socket_fd := Some 4;
     connect_result := -1;
     recv_data := None |}.

Definition request (m p b : string) : HTTPRequest :=
  {| method := m; path := p; body := b; body_length := String.length b |}.

Definition reply_created : string :=
  "HTTP/1.1 201 Created" ++ (CRLF ++ CRLF) ++ "{id:1}".

Definition reply_with_nul : string :=
  "HTTP/1.1 200 OK" ++ (CRLF ++ CRLF) ++ "ab" ++ String NUL "cd".

Definition reply_bare_with_nul : string := "ab" ++ String NUL "cd".

(** A stack region that holds [n] zero bytes. *)
Fixpoint zeros (n : nat) : string :=
  match n with
  | 0 => ""
  | S n' => String NUL (zeros n')
  end.

(** A body of [n] letters. *)
Fixpoint letters (n : nat) : string :=
  match n with
  | 0 => ""
  | S n' => String "a" (letters n')
  end.

(** 1024 bytes of stack that an earlier call left behind: fifteen bytes of
    old data, zero bytes after them. *)
Definition stale_stack : string := "XXXXXXXXXXXXXXX" ++ zeros 1009.

(** Stand-ins for the parser and the serializer where a statement about
    [launch] needs some. *)
Definition sample_parse (buffer : string) : HTTPRequest := request "GET" "/" "".

Definition sample_serialize (r : HTTPResponse) : string :=
  "HTTP/1.1 " ++ status_text r ++ CRLF ++ CRLF ++ response_body r.

Definition host_bind_fails : Host :=
  {| bind_result := -1; listen_result := 0; clients := [] |}.

Definition host_listen_fails : Host :=
  {| bind_result := 0; listen_result := -1; clients := [] |}.

(** A parser for the examples: the method and the path are the first two
    words of the buffer, the body is what follows the first empty line. *)
Definition line_parse (buffer : string) : HTTPRequest :=
  let text := c_str buffer in
  let m := span_token " " text in
  let p := span_token " " (drop (String.length m + 1) text) in
  let b := match strstr text (CRLF ++ CRLF) with
           | Some found => drop 4 found
           | None => ""
           end in
  request m p b.


(** A machine whose backend socket is created but refused by [connect]. *)
Definition machine_connect_refused : Env :=
  {| realpath := fun _ => Some "/srv/www";
     fs := no_files;
     open_fd := Some 3;
     stack_bytes := "";
     getaddrinfo_result := 0;
     socket_fd := Some 4;
     connect_result := -1;
     recv_data := None |}.





(** The machine with its descriptor table full: [open] fails. *)
Definition machine_no_descriptor (files : string -> file_state) : Env :=
  {| realpath := fun _ => Some "/srv/www";
     fs := files;
     open_fd := None;
     stack_bytes := zeros 1024;
     getaddrinfo_result := 0;
     socket_fd := Some 4;
     connect_result := 0;
     recv_data := None |}.

(** A process that already holds the socket 9. *)
Definition state_holding_9 : State :=
  {| fds := [(9%Z, SocketDesc)]; trace := [] |}.

Definition index_file : string -> file_state :=
  one_file "/srv/www//static/index.html" "<p>hi</p>".

(** ** The server *)

Section Server.

(** Constants of [server.h], a header that is not among the sources. *)
Variable MAX_BUFFER_SIZE : nat.
Variable PATH_MAX : nat.
Variable BASE_DIR : string.
Variable SOCKET_BIND_ERROR : Z.
Variable SOCKET_LISTEN_ERROR : Z.

(** The parser and the serializer, defined in other files. *)
Variable parse_http_request : string -> HTTPRequest.
Variable httpresponse_serialize : HTTPResponse -> string.

(** [MAX_BUFFER_SIZE] sizes automatic arrays and bounds counts returned as
    [int]: it lies in the range of [int]. *)
Hypothesis MAX_BUFFER_SIZE_int : (Z.of_nat MAX_BUFFER_SIZE <= INT_MAX)%Z.

Definition connect_to_backend (e : Env) (host port : string) : M Z :=
  let hints := {| ai_family := AF_INET; ai_socktype := SOCK_STREAM |} in
  r <- getaddrinfo e host port hints ;;
  if negb (fst r =? 0)%Z then ret (-1)%Z
  else
    let res := snd r in
    sock <- sys_socket e (ai_family res) (ai_socktype res) ;;
    if (sock <? 0)%Z then freeaddrinfo ;;; ret (-1)%Z
    else
      c <- sys_connect e sock ;;
      if negb (c =? 0)%Z then freeaddrinfo ;;; ret (-1)%Z
      else freeaddrinfo ;;; ret sock.

(** The branch of [request_handler] taken on the token ["static"]. *)
Definition static_responder (e : Env) (request_ptr : HTTPRequest) : M HTTPResponse :=
  match realpath e BASE_DIR with
  | None => undefined "%s applied to a null pointer"
  | Some root =>
      let formatted := snprintf PATH_MAX (root ++ "/" ++ c_str (path request_ptr)) in
      let filepath := snd formatted in
      if (fst formatted <? 0)%Z
      then ret (response_builder 404 "Not Found" "<h1>snprintf() error</h1>")
      else
        a <- sys_access e filepath ;;
        if negb (a =? 0)%Z
        then ret (response_builder 403 "Forbidden" "<h1>403 Forbidden</h1>")
        else
          fd <- sys_open e filepath ;;
          if (fd =? -1)%Z
          then ret (response_builder 404 "Not Found" "<h1>404 Not Found</h1>")
          else
            let buffer := take MAX_BUFFER_SIZE (stack_bytes e) in
            r <- sys_read fd buffer MAX_BUFFER_SIZE ;;
            let buffer := snd r in
            text <- array_c_str buffer ;;
            let response := response_builder 200 "OK" text in
            sys_close fd ;;;
            ret response
  end.

(** The text the proxy formats with [snprintf]. *)
Definition proxy_request_head (method api_path : string) (body_length : nat) : string :=
  method ++ " " ++ api_path ++ " HTTP/1.1" ++ CRLF ++
  "Host: localhost" ++ CRLF ++
  "Content-Length: " ++ fmt_zu body_length ++ CRLF ++
  "Connection: close" ++ CRLF ++
  CRLF.

(** [api_path]: the path moved past ["/api"], or ["/"] when nothing is left. *)
Definition api_path_of (request_ptr : HTTPRequest) : M string :=
  p <- ptr_add (path request_ptr) (strlen "/api") ;;
  ret (match c_str p with "" => "/" | s => s end).

(** The exchange with the backend once it is connected: the end of the
    ["api"] branch, from [send] to the response. *)
Definition backend_exchange (e : Env) (backend_fd : Z) (proxy_request : string)
    (proxy_request_len : Z) : M HTTPResponse :=
  (if (Z.of_nat MAX_BUFFER_SIZE <? proxy_request_len)%Z
   then undefined "send reads past the end of the array"
   else sys_send backend_fd
          (take (Z.to_nat proxy_request_len) (proxy_request ++ String NUL ""))) ;;;
  r <- sys_recv e backend_fd MAX_BUFFER_SIZE ;;
  let proxy_response_len := fst r in
  if (proxy_response_len <? 0)%Z
  then ret (response_builder 502 "Bad Gateway"
              "<h1>502 Bad Gateway: Failed to Read from Backend</h1>")
  else
    if (MAX_BUFFER_SIZE <=? Z.to_nat proxy_response_len)%nat
    then undefined "terminator written past the end of the array"
    else
      let proxy_response := snd r ++ String NUL "" in
      sys_close backend_fd ;;;
      let body :=
        match strstr (c_str proxy_response) (CRLF ++ CRLF) with
        | None => c_str proxy_response
        | Some found => drop 4 found
        end in
      ret (response_builder 200 "OK" body).

(** The branch of [request_handler] taken on the token ["api"]. *)
Definition proxy_responder (e : Env) (request_ptr : HTTPRequest) : M HTTPResponse :=
  api_path <- api_path_of request_ptr ;;
  let formatted :=
    snprintf MAX_BUFFER_SIZE
      (proxy_request_head (c_str (method request_ptr)) api_path
                          (body_length request_ptr)) in
  let proxy_request_len := fst formatted in
  if (proxy_request_len <? 0)%Z
  then ret (response_builder 500 "Internal Server Error"
                             "<h1>proxy snprintf() error</h1>")
  else
    proxy_request <- strncat MAX_BUFFER_SIZE (snd formatted)
                             (body request_ptr) (body_length request_ptr) ;;
    backend_fd <- connect_to_backend e "localhost" "8000" ;;
    if (backend_fd =? -1)%Z
    then ret (response_builder 502 "Bad Gateway"
                               "<h1>502 Bad Gateway: Backend Unavailable</h1>")
    else backend_exchange e backend_fd proxy_request proxy_request_len.

Definition request_handler (e : Env) (request_ptr : HTTPRequest) : M HTTPResponse :=
  let path := strdup (path request_ptr) in
  match strtok path "/" with
  | Some token =>
      if (strcmp token "static" =? 0)%Z then static_responder e request_ptr
      else if (strcmp token "api" =? 0)%Z then proxy_responder e request_ptr
      else ret (response_builder 404 "Not Found" "<h1>404 Not Found</h1>")
  | None => ret (response_builder 404 "Not Found" "<h1>404 Not Found</h1>")
  end.

(** One turn of the loop of [launch]. *)
Definition serve_one (c : Connection) : M unit :=
  let buffer := take MAX_BUFFER_SIZE (stack_bytes (conn_env c)) in
  new_socket <- sys_accept c ;;
  emit (EvRead new_socket) ;;;
  let buffer := overwrite (take MAX_BUFFER_SIZE (incoming c)) buffer in
  let httprequest_ptr := parse_http_request buffer in
  httpresponse_ptr <- request_handler (conn_env c) httprequest_ptr ;;
  let response := httpresponse_serialize httpresponse_ptr in
  sys_write new_socket (c_str response) ;;;
  sys_close new_socket ;;;
  ret tt.

Fixpoint serve (cs : list Connection) : M launch_result :=
  match cs with
  | [] => ret Accepting
  | c :: rest => serve_one c ;;; serve rest
  end.

Definition launch (h : Host) : M launch_result :=
  b <- sys_bind h ;;
  if (b <? 0)%Z then ret (Returned SOCKET_BIND_ERROR)
  else
    l <- sys_listen h ;;
    if (l <? 0)%Z then ret (Returned SOCKET_LISTEN_ERROR)
    else serve (clients h).

(** ** Vocabulary of the statements *)

(** A request the router hands to the proxy responder. *)
Definition proxied (request_ptr : HTTPRequest) : Prop :=
  strtok (strdup (path request_ptr)) "/" = Some "api".

(** A request the router hands to the static responder. *)
Definition static_request (request_ptr : HTTPRequest) : Prop :=
  strtok (strdup (path request_ptr)) "/" = Some "static".

(** The path put on the outbound request line. *)
Definition forwarded_path (request_ptr : HTTPRequest) : string :=
  match c_str (drop 4 (path request_ptr)) with "" => "/" | s => s end.

Definition outbound_head (request_ptr : HTTPRequest) : string :=
  proxy_request_head (c_str (method request_ptr)) (forwarded_path request_ptr)
                     (body_length request_ptr).

Definition outbound_body (request_ptr : HTTPRequest) : string :=
  take (body_length request_ptr) (c_str (body request_ptr)).

(** The outbound request, head and body and terminator, is written inside
    [proxy_request], and [api_path] points inside the path. *)
Definition framed (request_ptr : HTTPRequest) : Prop :=
  4 <= String.length (path request_ptr) /\
  String.length (outbound_head request_ptr)
    + String.length (outbound_body request_ptr) + 1 <= MAX_BUFFER_SIZE.

(** The file the static responder looks at. *)
Definition static_filepath (root : string) (request_ptr : HTTPRequest) : string :=
  take (PATH_MAX - 1) (root ++ "/" ++ c_str (path request_ptr)).

Definition backend_reachable (e : Env) (sock : nat) : Prop :=
  getaddrinfo_result e = 0%Z /\ socket_fd e = Some sock /\ connect_result e = 0%Z.

Definition backend_unreachable (e : Env) : Prop :=
  getaddrinfo_result e <> 0%Z \/ socket_fd e = None \/ connect_result e <> 0%Z.

Definition hints_inet_stream : addrinfo :=
  {| ai_family := AF_INET; ai_socktype := SOCK_STREAM |}.

(** [k] slashes. *)
Fixpoint slashes (k : nat) : string :=
  match k with
  | 0 => ""
  | S k' => String "/" (slashes k')
  end.

(** ASCII lower case, to speak of segments that differ in letter case only. *)
Definition lower_ascii (c : ascii) : ascii :=
  let n := nat_of_ascii c in
  if (65 <=? n)%nat && (n <=? 90)%nat then ascii_of_nat (n + 32) else c.

Fixpoint lower (s : string) : string :=
  match s with
  | "" => ""
  | String c rest => String (lower_ascii c) (lower rest)
  end.

Definition event_is_accept (ev : event) : bool :=
  match ev with EvAccept _ => true | _ => false end.

Definition event_is_close (fd : Z) (ev : event) : bool :=
  match ev with EvClose fd' => (fd' =? fd)%Z | _ => false end.

(** *** Vocabulary of the further properties *)

Definition event_is_freeaddrinfo (ev : event) : bool :=
  match ev with EvFreeaddrinfo => true | _ => false end.


(** A request the router sends to neither responder. *)
Definition unrouted (request_ptr : HTTPRequest) : Prop :=
  match strtok (strdup (path request_ptr)) "/" with
  | Some token => token <> "static" /\ token <> "api"
  | None => True
  end.


(** The status lines and the fixed bodies [request_handler] can answer
    with besides 200. *)
Definition error_responses : list HTTPResponse :=
  [ response_builder 404 "Not Found" "<h1>snprintf() error</h1>";
    response_builder 403 "Forbidden" "<h1>403 Forbidden</h1>";
    response_builder 404 "Not Found" "<h1>404 Not Found</h1>";
    response_builder 500 "Internal Server Error" "<h1>proxy snprintf() error</h1>";
    response_builder 502 "Bad Gateway" "<h1>502 Bad Gateway: Backend Unavailable</h1>";
    response_builder 502 "Bad Gateway"
      "<h1>502 Bad Gateway: Failed to Read from Backend</h1>" ].



(** ** Lemmas on the C string functions *)

Lemma append_nil_r (s : string) : s ++ "" = s.
Proof. induction s as [|c s IH]; simpl; [reflexivity | now rewrite IH]. Qed.

Lemma append_assoc (a b c : string) : (a ++ b) ++ c = a ++ (b ++ c).
Proof. induction a as [|x a IH]; simpl; [reflexivity | now rewrite IH]. Qed.

Lemma c_str_no_nul (s : string) : has_nul s = false -> c_str s = s.
Proof.
  induction s as [|c s IH]; simpl; intro H; [reflexivity|].
  apply orb_false_iff in H as [Hc Hs]. rewrite Hc, (IH Hs). reflexivity.
Qed.

Lemma has_nul_append (a b : string) : has_nul (a ++ b) = has_nul a || has_nul b.
Proof.
  induction a as [|x a IH]; simpl; [reflexivity|].
  now rewrite IH, orb_assoc.
Qed.

Lemma c_str_append_nul (a b : string) :
  has_nul a = false -> c_str (a ++ String NUL b) = a.
Proof.
  induction a as [|x a IH]; simpl; intro H; [reflexivity|].
  apply orb_false_iff in H as [Hx Ha]. now rewrite Hx, (IH Ha).
Qed.

Lemma take_all (s : string) (n : nat) : String.length s <= n -> take n s = s.
Proof using Type.
  clear MAX_BUFFER_SIZE_int.
  revert n; induction s as [|c s IH]; intros [|n] H; simpl in *;
    try reflexivity; try lia.
  rewrite IH by lia. reflexivity.
Qed.

Lemma take_append (a b : string) : take (String.length a) (a ++ b) = a.
Proof. induction a as [|x a IH]; simpl; [now destruct b | now rewrite IH]. Qed.

Lemma length_take (n : nat) (s : string) :
  String.length (take n s) = Nat.min n (String.length s).
Proof.
  revert s; induction n as [|n IH]; intros [|c s]; simpl; try reflexivity.
  now rewrite IH.
Qed.

Lemma starts_with_append (p s : string) : starts_with p (p ++ s) = true.
Proof.
  induction p as [|c p IH]; simpl; [reflexivity|].
  now rewrite Ascii.eqb_refl, IH.
Qed.

Lemma starts_with_inv (p s : string) :
  starts_with p s = true -> exists r, s = p ++ r.
Proof.
  revert s; induction p as [|c p IH]; intros s H; simpl in *.
  - now exists s.
  - destruct s as [|d s]; [discriminate|].
    apply andb_true_iff in H as [Hc Hp]. apply Ascii.eqb_eq in Hc. subst d.
    destruct (IH _ Hp) as [r ->]. now exists r.
Qed.

Lemma strcmp_refl (a : string) : strcmp a a = 0%Z.
Proof. induction a as [|c a IH]; simpl; [reflexivity | now rewrite Ascii.eqb_refl]. Qed.

Lemma nat_of_ascii_inj (c d : ascii) : nat_of_ascii c = nat_of_ascii d -> c = d.
Proof.
  intro H. rewrite <- (ascii_nat_embedding c), <- (ascii_nat_embedding d).
  now rewrite H.
Qed.

Lemma strcmp_eq (a b : string) : strcmp a b = 0%Z <-> a = b.
Proof.
  split; [|intros ->; apply strcmp_refl].
  revert b; induction a as [|c a IH]; intros [|d b]; simpl; intro H;
    try reflexivity; try discriminate.
  destruct (Ascii.eqb c d) eqn:E.
  - apply Ascii.eqb_eq in E. subst d. f_equal. now apply IH.
  - exfalso. apply Ascii.eqb_neq in E. apply E, nat_of_ascii_inj. lia.
Qed.

Lemma strcmp_neq (a b : string) : a <> b -> (strcmp a b =? 0)%Z = false.
Proof. intro H. apply Z.eqb_neq. intro E. now apply H, strcmp_eq. Qed.

Lemma mem_ascii_single (c d : ascii) : mem_ascii c (String d "") = Ascii.eqb c d.
Proof. cbn [mem_ascii]. apply orb_false_r. Qed.

Lemma skip_delims_slashes (k : nat) (s : string) :
  skip_delims "/" (slashes k ++ s) = skip_delims "/" s.
Proof. induction k as [|k IH]; simpl; [reflexivity | exact IH]. Qed.

Lemma span_token_segment (seg rest : string) :
  mem_ascii "/" seg = false ->
  rest = "" \/ starts_with "/" rest = true ->
  span_token "/" (seg ++ rest) = seg.
Proof.
  intros Hseg Hrest. induction seg as [|c seg IH].
  - cbn [append]. destruct Hrest as [-> | H]; [reflexivity|].
    destruct rest as [|d rest]; [reflexivity|]. cbn [starts_with] in H.
    apply andb_true_iff in H as [H _]. apply Ascii.eqb_eq in H. subst d.
    reflexivity.
  - cbn [mem_ascii] in Hseg. apply orb_false_iff in Hseg as [Hc Hs].
    rewrite Ascii.eqb_sym in Hc.
    cbn [append span_token]. rewrite mem_ascii_single, Hc. now rewrite IH.
Qed.

Lemma strtok_segment (k : nat) (seg rest : string) :
  seg <> "" ->
  mem_ascii "/" seg = false ->
  rest = "" \/ starts_with "/" rest = true ->
  strtok (slashes k ++ seg ++ rest) "/" = Some seg.
Proof.
  intros Hne Hseg Hrest. unfold strtok. rewrite skip_delims_slashes.
  destruct seg as [|c seg]; [contradiction|].
  pose proof Hseg as H. cbn [mem_ascii] in H. apply orb_false_iff in H as [Hc _].
  rewrite Ascii.eqb_sym in Hc.
  change (String c seg ++ rest) with (String c (seg ++ rest)).
  cbn [skip_delims]. rewrite mem_ascii_single, Hc.
  change (String c (seg ++ rest)) with (String c seg ++ rest).
  now rewrite span_token_segment.
Qed.

Lemma strtok_slashes (k : nat) : strtok (slashes k) "/" = None.
Proof.
  unfold strtok. rewrite <- (append_nil_r (slashes k)), skip_delims_slashes.
  reflexivity.
Qed.

Lemma strstr_first (sep h r : string) :
  (forall h' r', h ++ sep ++ r = h' ++ sep ++ r' -> String.length h <= String.length h') ->
  strstr (h ++ sep ++ r) sep = Some (sep ++ r).
Proof using Type.
  clear MAX_BUFFER_SIZE_int.
  induction h as [|c h IH]; intro Hmin.
  - simpl. destruct (sep ++ r) eqn:E; simpl; rewrite <- E;
      now rewrite starts_with_append.
  - change (String c h ++ sep ++ r) with (String c (h ++ sep ++ r)).
    cbn [strstr].
    destruct (starts_with sep (String c (h ++ sep ++ r))) eqn:E.
    + apply starts_with_inv in E as [r' E].
      specialize (Hmin "" r' E). simpl in Hmin. lia.
    + apply IH. intros h' r' E'.
      specialize (Hmin (String c h') r'). simpl in Hmin.
      rewrite E' in Hmin. specialize (Hmin eq_refl). lia.
Qed.

Lemma strstr_none (sep s : string) :
  (forall a b, s <> a ++ sep ++ b) -> strstr s sep = None.
Proof.
  induction s as [|c s IH]; intro H.
  - simpl. destruct (starts_with sep "") eqn:E; [|reflexivity].
    apply starts_with_inv in E as [r E]. exfalso. apply (H "" r). exact E.
  - cbn [strstr]. destruct (starts_with sep (String c s)) eqn:E.
    + apply starts_with_inv in E as [r E]. exfalso. apply (H "" r). exact E.
    + apply IH. intros a b E'. apply (H (String c a) b). simpl. now rewrite E'.
Qed.

Lemma segment_split (s : string) :
  exists seg rest,
    s = seg ++ rest /\ mem_ascii "/" seg = false /\
    (rest = "" \/ starts_with "/" rest = true).
Proof.
  induction s as [|c s (seg & rest & Hs & Hseg & Hrest)].
  - exists "", "". repeat split. now left.
  - destruct (Ascii.eqb "/" c) eqn:E.
    + apply Ascii.eqb_eq in E. subst c. exists "", (String "/" s).
      repeat split. right. cbn [starts_with]. now rewrite Ascii.eqb_refl.
    + exists (String c seg), rest. cbn [append mem_ascii].
      rewrite <- Hs, E, Hseg. repeat split. exact Hrest.
Qed.

(** Every path is some slashes, a segment without slash, and a rest that is
    empty or begins with a slash; the segment is empty only at the end.  The
    statements on the router, which start from such a shape, therefore speak
    of every request. *)
Lemma path_shape (p : string) :
  exists k seg rest,
    p = slashes k ++ seg ++ rest /\ mem_ascii "/" seg = false /\
    (rest = "" \/ starts_with "/" rest = true) /\
    (seg = "" -> rest = "").
Proof.
  induction p as [|c p (k & seg & rest & Hp & Hseg & Hrest & Hend)].
  - exists 0, "", "". repeat split. now left.
  - destruct (Ascii.eqb "/" c) eqn:E.
    + apply Ascii.eqb_eq in E. subst c. exists (S k), seg, rest.
      cbn [slashes append]. rewrite <- Hp. repeat split; assumption.
    + destruct (segment_split p) as (seg' & rest' & Hs & Hseg' & Hrest').
      exists 0, (String c seg'), rest'. cbn [slashes append mem_ascii].
      rewrite <- Hs, E, Hseg'. repeat split; [exact Hrest' | discriminate].
Qed.

(** *** Searching a separator, read backwards *)

Lemma strstr_found_is_first (sep s found : string) :
  strstr s sep = Some found ->
  forall h' r', s = h' ++ sep ++ r' ->
                String.length s - String.length found <= String.length h'.
Proof using Type.
  clear MAX_BUFFER_SIZE_int.
  induction s as [|c s IH]; cbn [strstr]; intros H h' r' E.
  - cbn [String.length]. lia.
  - destruct (starts_with sep (String c s)) eqn:Es.
    + injection H as <-. lia.
    + destruct h' as [|d h'].
      * cbn [append] in E. rewrite E, starts_with_append in Es. discriminate.
      * cbn [append] in E. injection E as _ E.
        specialize (IH H h' r' E). cbn [String.length]. lia.
Qed.

Lemma strstr_none_inv (sep s : string) :
  strstr s sep = None -> forall a b, s <> a ++ sep ++ b.
Proof.
  induction s as [|c s IH]; cbn [strstr]; intros H a b E.
  - destruct (starts_with sep "") eqn:Es; [discriminate|].
    destruct a; [|discriminate]. cbn [append] in E.
    rewrite E, starts_with_append in Es. discriminate.
  - destruct (starts_with sep (String c s)) eqn:Es; [discriminate|].
    destruct a as [|d a].
    + cbn [append] in E. rewrite E, starts_with_append in Es. discriminate.
    + cbn [append] in E. injection E as _ E. exact (IH H a b E).
Qed.

(** *** The router *)

Lemma handler_static (e : Env) (request_ptr : HTTPRequest) :
  static_request request_ptr ->
  request_handler e request_ptr = static_responder e request_ptr.
Proof. unfold static_request, request_handler. intros ->. reflexivity. Qed.

Lemma handler_api (e : Env) (request_ptr : HTTPRequest) :
  proxied request_ptr ->
  request_handler e request_ptr = proxy_responder e request_ptr.
Proof. unfold proxied, request_handler. intros ->. reflexivity. Qed.

Lemma handler_other (e : Env) (request_ptr : HTTPRequest) (token : string) :
  strtok (strdup (path request_ptr)) "/" = Some token ->
  token <> "static" -> token <> "api" ->
  request_handler e request_ptr =
  ret (response_builder 404 "Not Found" "<h1>404 Not Found</h1>").
Proof.
  unfold request_handler. intros -> H1 H2.
  now rewrite (strcmp_neq _ _ H1), (strcmp_neq _ _ H2).
Qed.

Lemma handler_no_token (e : Env) (request_ptr : HTTPRequest) :
  strtok (strdup (path request_ptr)) "/" = None ->
  request_handler e request_ptr =
  ret (response_builder 404 "Not Found" "<h1>404 Not Found</h1>").
Proof. unfold request_handler. intros ->. reflexivity. Qed.

(** *** Reaching the backend *)

Lemma connect_reachable (e : Env) (host port : string) (sock : nat) (s : State) :
  backend_reachable e sock ->
  connect_to_backend e host port s =
  (Done (Z.of_nat sock),
   {| fds := (Z.of_nat sock, SocketDesc) :: fds s;
      trace := trace s ++ [EvGetaddrinfo host port hints_inet_stream;
                           EvSocket AF_INET SOCK_STREAM (Z.of_nat sock);
                           EvConnect (Z.of_nat sock); EvFreeaddrinfo] |}).
Proof.
  intros (Hres & Hsock & Hconn).
  unfold connect_to_backend, getaddrinfo, sys_socket, sys_connect, freeaddrinfo,
    bind, ret, emit, add_fd.
  cbn [fst snd fds trace ai_family ai_socktype]. rewrite Hres, Hsock.
  cbn [Z.eqb negb fds trace].
  replace (Z.of_nat sock <? 0)%Z with false by (symmetry; apply Z.ltb_ge; lia).
  rewrite Hconn. cbn [Z.eqb negb fds trace].
  repeat rewrite <- app_assoc. reflexivity.
Qed.

Lemma connect_unreachable (e : Env) (host port : string) (s : State) :
  backend_unreachable e ->
  exists s' t,
    connect_to_backend e host port s = (Done (-1)%Z, s') /\
    trace s' = (trace s ++ EvGetaddrinfo host port hints_inet_stream :: t)%list /\
    (t = [] \/
     t = [EvSocket AF_INET SOCK_STREAM (-1); EvFreeaddrinfo] \/
     exists sock, t = [EvSocket AF_INET SOCK_STREAM sock; EvConnect sock;
                       EvFreeaddrinfo]).
Proof.
  intro H.
  unfold connect_to_backend, getaddrinfo, sys_socket, sys_connect, freeaddrinfo,
    bind, ret, emit, add_fd.
  cbn [fst snd fds trace ai_family ai_socktype].
  destruct (getaddrinfo_result e =? 0)%Z eqn:Eres; cbn [negb].
  - destruct (socket_fd e) as [sock|] eqn:Esock; cbn [fds trace].
    + replace (Z.of_nat sock <? 0)%Z with false by (symmetry; apply Z.ltb_ge; lia).
      destruct (connect_result e =? 0)%Z eqn:Econn; cbn [negb fds trace].
      * exfalso. apply Z.eqb_eq in Eres, Econn.
        destruct H as [H | [H | H]]; congruence.
      * eexists. eexists. split; [reflexivity|]. cbn [trace].
        repeat rewrite <- app_assoc. split; [reflexivity|].
        right. right. eexists. reflexivity.
    + eexists. eexists. split; [reflexivity|]. cbn [trace].
      repeat rewrite <- app_assoc. split; [reflexivity|]. right. now left.
  - eexists. exists []. split; [reflexivity|]. cbn [trace].
    split; [reflexivity | now left].
Qed.

(** *** Framing the outbound request *)

Lemma api_path_framed (request_ptr : HTTPRequest) (s : State) :
  4 <= String.length (path request_ptr) ->
  api_path_of request_ptr s = (Done (forwarded_path request_ptr), s).
Proof.
  intro H. unfold api_path_of, ptr_add, bind, ret.
  change (strlen "/api") with 4.
  replace (4 <=? String.length (path request_ptr))%nat with true
    by (symmetry; apply Nat.leb_le; exact H).
  reflexivity.
Qed.

Lemma proxy_framed (e : Env) (request_ptr : HTTPRequest) (s : State) :
  framed request_ptr ->
  proxy_responder e request_ptr s =
  (backend_fd <- connect_to_backend e "localhost" "8000" ;;
   if (backend_fd =? -1)%Z
   then ret (response_builder 502 "Bad Gateway"
                              "<h1>502 Bad Gateway: Backend Unavailable</h1>")
   else backend_exchange e backend_fd
          (outbound_head request_ptr ++ outbound_body request_ptr)
          (Z.of_nat (String.length (outbound_head request_ptr)))) s.
Proof using MAX_BUFFER_SIZE_int.
  intros [Hpath Hfit].
  unfold proxy_responder. unfold bind at 1. rewrite (api_path_framed _ _ Hpath).
  fold (outbound_head request_ptr). unfold snprintf. cbn [fst snd].
  replace (INT_MAX <? Z.of_nat (String.length (outbound_head request_ptr)))%Z
    with false by (symmetry; apply Z.ltb_ge; lia).
  replace (Z.of_nat (String.length (outbound_head request_ptr)) <? 0)%Z
    with false by (symmetry; apply Z.ltb_ge; lia).
  rewrite take_all by lia.
  unfold strncat. fold (outbound_body request_ptr).
  replace (String.length (outbound_head request_ptr)
           + String.length (outbound_body request_ptr) + 1 <=? MAX_BUFFER_SIZE)%nat
    with true by (symmetry; apply Nat.leb_le; exact Hfit).
  reflexivity.
Qed.

(** *** The exchange with the backend *)

Lemma c_str_terminated (s : string) : c_str (s ++ String NUL "") = c_str s.
Proof.
  induction s as [|c s IH]; [reflexivity|].
  cbn [append c_str]. now rewrite IH.
Qed.

Lemma exchange_send (fd : Z) (head body : string) :
  String.length head <= MAX_BUFFER_SIZE ->
  (if (Z.of_nat MAX_BUFFER_SIZE <? Z.of_nat (String.length head))%Z
   then undefined "send reads past the end of the array"
   else sys_send fd
          (take (Z.to_nat (Z.of_nat (String.length head)))
                ((head ++ body) ++ String NUL ""))) =
  sys_send fd head.
Proof.
  intro H.
  replace (Z.of_nat MAX_BUFFER_SIZE <? Z.of_nat (String.length head))%Z
    with false by (symmetry; apply Z.ltb_ge; lia).
  now rewrite Nat2Z.id, append_assoc, take_append.
Qed.

Lemma exchange_recv_fails (e : Env) (fd : Z) (head body : string) (s : State) :
  String.length head <= MAX_BUFFER_SIZE ->
  recv_data e = None ->
  backend_exchange e fd (head ++ body) (Z.of_nat (String.length head)) s =
  (Done (response_builder 502 "Bad Gateway"
           "<h1>502 Bad Gateway: Failed to Read from Backend</h1>"),
   {| fds := fds s; trace := trace s ++ [EvSend fd head; EvRecv fd] |}).
Proof.
  intros Hlen Hrecv. unfold backend_exchange. rewrite (exchange_send _ _ _ Hlen).
  unfold sys_send, sys_recv, bind, ret, emit. rewrite Hrecv.
  cbn [fst snd fds trace Z.ltb Z.compare]. now rewrite <- app_assoc.
Qed.

Lemma exchange_reply (e : Env) (fd : Z) (head body reply : string) (s : State) :
  String.length head <= MAX_BUFFER_SIZE ->
  recv_data e = Some reply ->
  String.length reply < MAX_BUFFER_SIZE ->
  backend_exchange e fd (head ++ body) (Z.of_nat (String.length head)) s =
  (Done (response_builder 200 "OK"
           match strstr (c_str reply) (CRLF ++ CRLF) with
           | None => c_str reply
           | Some found => drop 4 found
           end),
   {| fds := filter (fun p => negb (fst p =? fd)%Z) (fds s);
      trace := trace s ++ [EvSend fd head; EvRecv fd; EvClose fd] |}).
Proof.
  intros Hlen Hrecv Hreply. unfold backend_exchange.
  rewrite (exchange_send _ _ _ Hlen).
  unfold sys_send, sys_recv, sys_close, remove_fd, bind, ret, emit. rewrite Hrecv.
  rewrite (take_all reply) by lia. cbn [fst snd fds trace].
  replace (Z.of_nat (String.length reply) <? 0)%Z
    with false by (symmetry; apply Z.ltb_ge; lia).
  rewrite Nat2Z.id.
  replace (MAX_BUFFER_SIZE <=? String.length reply)%nat
    with false by (symmetry; apply Nat.leb_gt; exact Hreply).
  rewrite c_str_terminated. cbn [fds trace].
  repeat rewrite <- app_assoc. reflexivity.
Qed.

Lemma exchange_trace (e : Env) (fd : Z) (head body : string) (s : State) :
  String.length head <= MAX_BUFFER_SIZE ->
  exists t,
    trace (snd (backend_exchange e fd (head ++ body)
                  (Z.of_nat (String.length head)) s)) =
    (trace s ++ EvSend fd head :: EvRecv fd :: t)%list /\
    (t = [] \/ t = [EvClose fd]).
Proof.
  intro Hlen. unfold backend_exchange. rewrite (exchange_send _ _ _ Hlen).
  unfold sys_send, sys_recv, sys_close, remove_fd, bind, ret, emit, undefined.
  destruct (recv_data e) as [reply|]; cbn [fst snd fds trace].
  - destruct (Z.of_nat (String.length (take MAX_BUFFER_SIZE reply)) <? 0)%Z.
    + exists []. rewrite <- app_assoc. split; [reflexivity | now left].
    + destruct (MAX_BUFFER_SIZE <=? _)%nat; cbn [snd trace].
      * exists []. rewrite <- app_assoc. split; [reflexivity | now left].
      * exists [EvClose fd]. repeat rewrite <- app_assoc.
        split; [reflexivity | now right].
  - exists []. cbn [Z.ltb Z.compare snd trace]. rewrite <- app_assoc.
    split; [reflexivity | now left].
Qed.

Lemma framed_head (request_ptr : HTTPRequest) :
  framed request_ptr -> String.length (outbound_head request_ptr) <= MAX_BUFFER_SIZE.
Proof. intros [_ H]. lia. Qed.

Lemma proxy_reachable (e : Env) (request_ptr : HTTPRequest) (sock : nat) :
  framed request_ptr ->
  backend_reachable e sock ->
  run (proxy_responder e request_ptr) =
  backend_exchange e (Z.of_nat sock)
    (outbound_head request_ptr ++ outbound_body request_ptr)
    (Z.of_nat (String.length (outbound_head request_ptr)))
    {| fds := [(Z.of_nat sock, SocketDesc)];
       trace := [EvGetaddrinfo "localhost" "8000" hints_inet_stream;
                 EvSocket AF_INET SOCK_STREAM (Z.of_nat sock);
                 EvConnect (Z.of_nat sock); EvFreeaddrinfo] |}.
Proof using MAX_BUFFER_SIZE_int.
  intros Hframed Hreach. unfold run. rewrite (proxy_framed _ _ _ Hframed).
  unfold bind at 1. rewrite (connect_reachable _ _ _ _ _ Hreach).
  replace (Z.of_nat sock =? -1)%Z with false by (symmetry; apply Z.eqb_neq; lia).
  reflexivity.
Qed.

(** *** The static responder *)

Lemma drop_nonempty (n : nat) (s : string) (c : ascii) (r : string) :
  drop n s = String c r -> n < String.length s.
Proof using Type.
  clear MAX_BUFFER_SIZE_int.
  revert s; induction n as [|n IH]; intros [|d s] H; cbn [drop String.length] in *;
    try discriminate; try lia.
  apply IH in H. lia.
Qed.

Lemma static_prefix (e : Env) (request_ptr : HTTPRequest) (root : string) (s : State) :
  realpath e BASE_DIR = Some root ->
  (Z.of_nat (String.length (root ++ "/" ++ c_str (path request_ptr))) <= INT_MAX)%Z ->
  static_responder e request_ptr s =
  (a <- sys_access e (static_filepath root request_ptr) ;;
   if negb (a =? 0)%Z
   then ret (response_builder 403 "Forbidden" "<h1>403 Forbidden</h1>")
   else
     fd <- sys_open e (static_filepath root request_ptr) ;;
     if (fd =? -1)%Z
     then ret (response_builder 404 "Not Found" "<h1>404 Not Found</h1>")
     else
       r <- sys_read fd (take MAX_BUFFER_SIZE (stack_bytes e)) MAX_BUFFER_SIZE ;;
       text <- array_c_str (snd r) ;;
       sys_close fd ;;;
       ret (response_builder 200 "OK" text)) s.
Proof.
  intros Hroot Hlen. unfold static_responder. rewrite Hroot.
  unfold snprintf. cbn [fst snd]. fold (static_filepath root request_ptr).
  replace (INT_MAX <? _)%Z with false by (symmetry; apply Z.ltb_ge; exact Hlen).
  replace (Z.of_nat _ <? 0)%Z with false by (symmetry; apply Z.ltb_ge; lia).
  reflexivity.
Qed.

(** ** Properties of the router *)

(** C1.  The router dispatches on the token [strtok] finds, the
    first non-empty path segment, any number of leading slashes being
    skipped: ["static"] goes to the static responder, ["api"] to the proxy
    responder, where a path that begins with ["/api"] is forwarded without
    that prefix (["/api/x"] as ["/x"], an empty remainder as ["/"]); any other
    segment yields the 404 response with the body ["<h1>404 Not Found</h1>"],
    and so does a path without any byte other than ['/']. *)
Theorem router_dispatches_on_first_token
    (e : Env) (request_ptr : HTTPRequest) (k : nat) (seg rest : string) :
  c_str (path request_ptr) = slashes k ++ seg ++ rest ->
  mem_ascii "/" seg = false ->
  rest = "" \/ starts_with "/" rest = true ->
  (seg = "static" ->
     request_handler e request_ptr = static_responder e request_ptr) /\
  (seg = "api" ->
     request_handler e request_ptr = proxy_responder e request_ptr /\
     forall r s, path request_ptr = "/api" ++ r ->
       api_path_of request_ptr s =
       (Done (match c_str r with "" => "/" | p => p end), s)) /\
  (seg <> "" -> seg <> "static" -> seg <> "api" ->
     request_handler e request_ptr =
     ret (response_builder 404 "Not Found" "<h1>404 Not Found</h1>")) /\
  (seg = "" -> rest = "" ->
     request_handler e request_ptr =
     ret (response_builder 404 "Not Found" "<h1>404 Not Found</h1>")).
Proof.
  intros Hpath Hseg Hrest.
  assert (Htok : seg <> "" ->
                 strtok (strdup (path request_ptr)) "/" = Some seg).
  { intro Hne. unfold strdup. rewrite Hpath. now apply strtok_segment. }
  repeat split.
  - intros ->. apply handler_static, Htok. discriminate.
  - subst seg. apply handler_api, Htok. discriminate.
  - intros r s Hr. unfold api_path_of, ptr_add, bind, ret. rewrite Hr.
    reflexivity.
  - intros Hne H1 H2. now apply (handler_other e request_ptr seg); auto.
  - intros -> ->. apply handler_no_token. unfold strdup. rewrite Hpath.
    cbn [append]. rewrite append_nil_r. apply strtok_slashes.
Qed.

(** C10.  The comparison of the routing segment is exact and case-sensitive: a
    request whose first path segment differs from ["static"] or ["api"] in
    letter case only gets the 404 response, and neither responder runs. *)
Theorem router_segment_is_case_sensitive
    (e : Env) (request_ptr : HTTPRequest) (k : nat) (seg rest : string) :
  c_str (path request_ptr) = slashes k ++ seg ++ rest ->
  mem_ascii "/" seg = false ->
  rest = "" \/ starts_with "/" rest = true ->
  lower seg = "static" \/ lower seg = "api" ->
  seg <> "static" -> seg <> "api" ->
  run (request_handler e request_ptr) =
  (Done (response_builder 404 "Not Found" "<h1>404 Not Found</h1>"), initial_state).
Proof.
  intros Hpath Hseg Hrest Hlow H1 H2.
  assert (Hne : seg <> "").
  { intros ->. cbn [lower] in Hlow. destruct Hlow; discriminate. }
  rewrite (handler_other e request_ptr seg); auto.
  unfold strdup. rewrite Hpath. now apply strtok_segment.
Qed.

(** ** Properties of the static responder *)

(** C2.  A static request for a file that [access] refuses gets 403 Forbidden
    whether the file is unreadable or does not exist: the check runs before
    [open], so a missing file never reaches the 404 of the failed [open]. *)
Theorem static_missing_or_unreadable_is_403
    (e : Env) (request_ptr : HTTPRequest) (root : string) :
  static_request request_ptr ->
  realpath e BASE_DIR = Some root ->
  (Z.of_nat (String.length (root ++ "/" ++ c_str (path request_ptr))) <= INT_MAX)%Z ->
  fs e (static_filepath root request_ptr) = NoEntry \/
  fs e (static_filepath root request_ptr) = NoPermission ->
  run (request_handler e request_ptr) =
  (Done (response_builder 403 "Forbidden" "<h1>403 Forbidden</h1>"),
   {| fds := []; trace := [EvAccess (static_filepath root request_ptr)] |}).
Proof.
  intros Hstatic Hroot Hlen Hfs. rewrite (handler_static _ _ Hstatic).
  unfold run. rewrite (static_prefix _ _ _ _ Hroot Hlen).
  unfold sys_access, bind, ret, emit.
  destruct Hfs as [-> | ->]; reflexivity.
Qed.

(** C7.  A static request for an existing readable file gets 200 OK, and its
    body is the C string found in [buffer] after the [read]: the file's
    bytes followed by [junk], the bytes that lay in the array behind them,
    up to the first NUL.  The body is the file's contents only when [junk]
    is empty. *)
Theorem static_body_runs_into_stale_bytes
    (e : Env) (request_ptr : HTTPRequest) (root content junk tail : string)
    (fd : nat) :
  static_request request_ptr ->
  realpath e BASE_DIR = Some root ->
  (Z.of_nat (String.length (root ++ "/" ++ c_str (path request_ptr))) <= INT_MAX)%Z ->
  fs e (static_filepath root request_ptr) = Regular content ->
  open_fd e = Some fd ->
  has_nul content = false ->
  drop (String.length content) (take MAX_BUFFER_SIZE (stack_bytes e))
    = junk ++ String NUL tail ->
  has_nul junk = false ->
  run (request_handler e request_ptr) =
  (Done (response_builder 200 "OK" (content ++ junk)),
   {| fds := [];
      trace := [EvAccess (static_filepath root request_ptr);
                EvOpen (static_filepath root request_ptr) (Z.of_nat fd);
                EvRead (Z.of_nat fd); EvClose (Z.of_nat fd)] |}).
Proof.
  intros Hstatic Hroot Hlen Hfs Hopen Hcontent Hstale Hjunk.
  assert (Hshort : String.length content <= MAX_BUFFER_SIZE).
  { assert (H : String.length content
                < String.length (take MAX_BUFFER_SIZE (stack_bytes e))).
    { destruct junk as [|c junk]; cbn [append] in Hstale;
        eapply drop_nonempty; exact Hstale. }
    rewrite length_take in H. lia. }
  rewrite (handler_static _ _ Hstatic). unfold run.
  rewrite (static_prefix _ _ _ _ Hroot Hlen).
  unfold sys_access, sys_open, sys_read, sys_close, array_c_str, get_fd, add_fd,
    remove_fd, bind, ret, emit.
  rewrite Hfs, Hopen. cbn [Z.eqb negb fds trace initial_state app lookup_fd fst snd].
  replace (Z.of_nat fd =? -1)%Z with false by (symmetry; apply Z.eqb_neq; lia).
  cbn [fds trace app lookup_fd]. rewrite Z.eqb_refl. cbn [fst snd].
  unfold overwrite. rewrite (take_all content) by exact Hshort. rewrite Hstale.
  rewrite <- append_assoc, has_nul_append.
  replace (has_nul (String NUL tail)) with true by reflexivity.
  rewrite orb_true_r. cbn [fds trace filter fst app].
  rewrite Z.eqb_refl. cbn [negb].
  rewrite c_str_append_nul by (rewrite has_nul_append, Hcontent, Hjunk; reflexivity).
  reflexivity.
Qed.

(** ** Properties of the proxy responder *)

(** C3.  For a proxied request framed inside the buffer, with the
    backend connected and a reply shorter than the buffer, the response is
    200 OK whatever status line the backend sent, and the reply is handled as
    a NUL-terminated string: the body is what follows the first
    ["\r\n\r\n"] of the reply read up to its first NUL byte; the headers
    before the separator are dropped. *)
Theorem proxy_reply_gives_200_and_text_after_separator
    (e : Env) (request_ptr : HTTPRequest) (sock : nat) (reply hdr rest : string) :
  proxied request_ptr ->
  framed request_ptr ->
  backend_reachable e sock ->
  recv_data e = Some reply ->
  String.length reply < MAX_BUFFER_SIZE ->
  c_str reply = hdr ++ (CRLF ++ CRLF) ++ rest ->
  (forall h' r', c_str reply = h' ++ (CRLF ++ CRLF) ++ r' ->
                 String.length hdr <= String.length h') ->
  fst (run (request_handler e request_ptr)) = Done (response_builder 200 "OK" rest).
Proof using MAX_BUFFER_SIZE_int.
  intros Hprox Hframed Hreach Hrecv Hshort Hsplit Hfirst.
  rewrite (handler_api _ _ Hprox), (proxy_reachable _ _ _ Hframed Hreach).
  rewrite (exchange_reply _ _ _ _ _ _ (framed_head _ Hframed) Hrecv Hshort).
  cbn [fst]. rewrite Hsplit, strstr_first.
  - reflexivity.
  - intros h' r' E. apply (Hfirst h' r'). now rewrite Hsplit.
Qed.

(** C9.  When the reply, read up to its first NUL byte, holds no
    ["\r\n\r\n"], the body of the 200 response is that whole text (the entire
    reply when it has no NUL byte), not the empty string. *)
Theorem proxy_reply_without_separator_is_body
    (e : Env) (request_ptr : HTTPRequest) (sock : nat) (reply : string) :
  proxied request_ptr ->
  framed request_ptr ->
  backend_reachable e sock ->
  recv_data e = Some reply ->
  String.length reply < MAX_BUFFER_SIZE ->
  (forall a b, c_str reply <> a ++ (CRLF ++ CRLF) ++ b) ->
  fst (run (request_handler e request_ptr)) =
  Done (response_builder 200 "OK" (c_str reply)) /\
  (has_nul reply = false -> c_str reply = reply).
Proof using MAX_BUFFER_SIZE_int.
  intros Hprox Hframed Hreach Hrecv Hshort Hnone. split.
  - rewrite (handler_api _ _ Hprox), (proxy_reachable _ _ _ Hframed Hreach).
    rewrite (exchange_reply _ _ _ _ _ _ (framed_head _ Hframed) Hrecv Hshort).
    cbn [fst]. now rewrite (strstr_none _ _ Hnone).
  - apply c_str_no_nul.
Qed.

(** C4.  What the proxy hands to [send] is the formatted head alone: the
    request line and the headers Host, Content-Length and Connection: close.
    The body bytes appended to the buffer lie behind the length passed to
    [send] and never reach the backend; no other [send] follows. *)
Theorem proxy_sends_head_without_body
    (e : Env) (request_ptr : HTTPRequest) (sock : nat) :
  proxied request_ptr ->
  framed request_ptr ->
  backend_reachable e sock ->
  exists t,
    trace (snd (run (request_handler e request_ptr))) =
    EvGetaddrinfo "localhost" "8000" hints_inet_stream
    :: EvSocket AF_INET SOCK_STREAM (Z.of_nat sock)
    :: EvConnect (Z.of_nat sock)
    :: EvFreeaddrinfo
    :: EvSend (Z.of_nat sock)
         (c_str (method request_ptr) ++ " " ++ forwarded_path request_ptr
          ++ " HTTP/1.1" ++ CRLF ++ "Host: localhost" ++ CRLF
          ++ "Content-Length: " ++ fmt_zu (body_length request_ptr) ++ CRLF
          ++ "Connection: close" ++ CRLF ++ CRLF)
    :: EvRecv (Z.of_nat sock)
    :: t /\
    (t = [] \/ t = [EvClose (Z.of_nat sock)]).
Proof using MAX_BUFFER_SIZE_int.
  intros Hprox Hframed Hreach.
  rewrite (handler_api _ _ Hprox), (proxy_reachable _ _ _ Hframed Hreach).
  destruct (exchange_trace e (Z.of_nat sock) (outbound_head request_ptr)
              (outbound_body request_ptr)
              {| fds := [(Z.of_nat sock, SocketDesc)];
                 trace := [EvGetaddrinfo "localhost" "8000" hints_inet_stream;
                           EvSocket AF_INET SOCK_STREAM (Z.of_nat sock);
                           EvConnect (Z.of_nat sock); EvFreeaddrinfo] |}
              (framed_head _ Hframed)) as (t & Ht & Hcases).
  exists t. split; [|exact Hcases]. rewrite Ht. reflexivity.
Qed.

(** C5.  When the read from the backend fails, the proxy responder returns
    502 "Failed to Read from Backend" without closing the backend socket:
    its calls end with the [recv], no [close] of the socket is among them,
    and the descriptor is still open when the responder returns. *)
Theorem proxy_read_failure_leaves_socket_open
    (e : Env) (request_ptr : HTTPRequest) (sock : nat) :
  proxied request_ptr ->
  framed request_ptr ->
  backend_reachable e sock ->
  recv_data e = None ->
  let result := run (request_handler e request_ptr) in
  fst result =
    Done (response_builder 502 "Bad Gateway"
            "<h1>502 Bad Gateway: Failed to Read from Backend</h1>") /\
  trace (snd result) =
    [EvGetaddrinfo "localhost" "8000" hints_inet_stream;
     EvSocket AF_INET SOCK_STREAM (Z.of_nat sock);
     EvConnect (Z.of_nat sock); EvFreeaddrinfo;
     EvSend (Z.of_nat sock) (outbound_head request_ptr);
     EvRecv (Z.of_nat sock)] /\
  existsb (event_is_close (Z.of_nat sock)) (trace (snd result)) = false /\
  lookup_fd (Z.of_nat sock) (fds (snd result)) = Some SocketDesc.
Proof using MAX_BUFFER_SIZE_int.
  intros Hprox Hframed Hreach Hrecv result. subst result.
  rewrite (handler_api _ _ Hprox), (proxy_reachable _ _ _ Hframed Hreach).
  rewrite (exchange_recv_fails _ _ _ _ _ (framed_head _ Hframed) Hrecv).
  cbn [fst snd fds trace app lookup_fd existsb event_is_close orb].
  rewrite Z.eqb_refl. repeat split.
Qed.

(** The other outcome of the read: on a reply the socket is closed and no
    descriptor stays open. *)
Lemma proxy_reply_closes_socket
    (e : Env) (request_ptr : HTTPRequest) (sock : nat) (reply : string) :
  proxied request_ptr ->
  framed request_ptr ->
  backend_reachable e sock ->
  recv_data e = Some reply ->
  String.length reply < MAX_BUFFER_SIZE ->
  snd (run (request_handler e request_ptr)) =
  {| fds := [];
     trace := [EvGetaddrinfo "localhost" "8000" hints_inet_stream;
               EvSocket AF_INET SOCK_STREAM (Z.of_nat sock);
               EvConnect (Z.of_nat sock); EvFreeaddrinfo;
               EvSend (Z.of_nat sock) (outbound_head request_ptr);
               EvRecv (Z.of_nat sock); EvClose (Z.of_nat sock)] |}.
Proof using MAX_BUFFER_SIZE_int.
  intros Hprox Hframed Hreach Hrecv Hshort.
  rewrite (handler_api _ _ Hprox), (proxy_reachable _ _ _ Hframed Hreach).
  rewrite (exchange_reply _ _ _ _ _ _ (framed_head _ Hframed) Hrecv Hshort).
  cbn [snd fds trace app filter fst]. rewrite Z.eqb_refl. reflexivity.
Qed.

(** Inside the buffer the unreachable backend is answered as intended.  A
    request for [/api/<anything>] whose outbound head and body fit the
    buffer meets a backend that cannot be reached (resolution, socket
    creation or connect fails): the response is 502 with the "Backend
    Unavailable" body.  Whatever state the process is in, the attempt is a
    connection of its own: it starts with a resolution restricted to IPv4
    stream sockets, followed by nothing, by a failed creation of such a
    socket, or by a fresh such socket whose connect fails. *)
Lemma proxy_backend_unreachable_is_502
    (e : Env) (request_ptr : HTTPRequest) (anything : string) (s : State) :
  path request_ptr = "/api/" ++ anything ->
  framed request_ptr ->
  backend_unreachable e ->
  exists s' t,
    request_handler e request_ptr s =
    (Done (response_builder 502 "Bad Gateway"
             "<h1>502 Bad Gateway: Backend Unavailable</h1>"), s') /\
    trace s' =
    (trace s ++ EvGetaddrinfo "localhost" "8000"
                  {| ai_family := AF_INET; ai_socktype := SOCK_STREAM |} :: t)%list /\
    (t = [] \/
     t = [EvSocket AF_INET SOCK_STREAM (-1); EvFreeaddrinfo] \/
     exists sock, t = [EvSocket AF_INET SOCK_STREAM sock; EvConnect sock;
                       EvFreeaddrinfo]).
Proof using MAX_BUFFER_SIZE_int.
  intros Hpath Hframed Hdown.
  assert (Hprox : proxied request_ptr).
  { unfold proxied, strdup. rewrite Hpath. reflexivity. }
  rewrite (handler_api _ _ Hprox), (proxy_framed _ _ _ Hframed).
  destruct (connect_unreachable e "localhost" "8000" s Hdown)
    as (s' & t & Hc & Ht & Hshape).
  exists s', t. split; [|split; [exact Ht | exact Hshape]].
  unfold bind. rewrite Hc. reflexivity.
Qed.

(** C6.  A request for [/api/...] whose head fits the buffer while head,
    body and terminator together do not gets no 502, whether the backend can
    be reached or not: [strncat] writes past the end of [proxy_request]
    before any connection is attempted, which leaves the behaviour of the
    responder undefined. *)
Theorem proxy_oversized_request_overflows
    (e : Env) (request_ptr : HTTPRequest) (s : State) :
  proxied request_ptr ->
  4 <= String.length (path request_ptr) ->
  String.length (outbound_head request_ptr) < MAX_BUFFER_SIZE ->
  MAX_BUFFER_SIZE < String.length (outbound_head request_ptr)
                    + String.length (outbound_body request_ptr) + 1 ->
  request_handler e request_ptr s =
  (Undefined "strncat writes past the end of the array", s).
Proof using MAX_BUFFER_SIZE_int.
  intros Hprox Hpath Hhead Hover. rewrite (handler_api _ _ Hprox).
  unfold proxy_responder. unfold bind at 1. rewrite (api_path_framed _ _ Hpath).
  fold (outbound_head request_ptr). unfold snprintf. cbn [fst snd].
  replace (INT_MAX <? Z.of_nat (String.length (outbound_head request_ptr)))%Z
    with false by (symmetry; apply Z.ltb_ge; lia).
  replace (Z.of_nat (String.length (outbound_head request_ptr)) <? 0)%Z
    with false by (symmetry; apply Z.ltb_ge; lia).
  rewrite take_all by lia.
  unfold strncat, bind. fold (outbound_body request_ptr).
  replace (String.length (outbound_head request_ptr)
           + String.length (outbound_body request_ptr) + 1 <=? MAX_BUFFER_SIZE)%nat
    with false by (symmetry; apply Nat.leb_gt; exact Hover).
  reflexivity.
Qed.

(** ** Start-up *)

(** C8.  If [bind] fails, [launch] returns [SOCKET_BIND_ERROR]; if [listen]
    fails, it returns [SOCKET_LISTEN_ERROR].  In both cases the call is made
    once, the code goes back to the caller and no [accept] is ever made. *)
Theorem launch_reports_bind_and_listen_failure (h : Host) :
  (bind_result h < 0 \/ listen_result h < 0)%Z ->
  exists code t,
    run (launch h) = (Done (Returned code), {| fds := []; trace := t |}) /\
    existsb event_is_accept t = false /\
    ((bind_result h < 0)%Z -> code = SOCKET_BIND_ERROR /\ t = [EvBind]) /\
    ((0 <= bind_result h)%Z ->
       code = SOCKET_LISTEN_ERROR /\ t = [EvBind; EvListen]).
Proof.
  intro H. unfold run, launch, sys_bind, sys_listen, bind, ret, emit.
  cbn [initial_state fds trace app].
  destruct (bind_result h <? 0)%Z eqn:Eb.
  - apply Z.ltb_lt in Eb. exists SOCKET_BIND_ERROR, [EvBind].
    repeat split; try reflexivity; lia.
  - apply Z.ltb_ge in Eb. destruct H as [H | H]; [lia|].
    replace (listen_result h <? 0)%Z with true by (symmetry; apply Z.ltb_lt; exact H).
    exists SOCKET_LISTEN_ERROR, [EvBind; EvListen].
    repeat split; try reflexivity; lia.
Qed.

(** ** Further properties: the backend connection *)

Lemma connect_to_backend_cases (e : Env) (host port : string) (s : State) :
  connect_to_backend e host port s =
  if negb (getaddrinfo_result e =? 0)%Z
  then (Done (-1)%Z,
        {| fds := fds s;
           trace := trace s ++ [EvGetaddrinfo host port hints_inet_stream] |})
  else match socket_fd e with
       | None =>
           (Done (-1)%Z,
            {| fds := fds s;
               trace := trace s ++ [EvGetaddrinfo host port hints_inet_stream;
                                    EvSocket AF_INET SOCK_STREAM (-1);
                                    EvFreeaddrinfo] |})
       | Some n =>
           (Done (if negb (connect_result e =? 0)%Z then (-1)%Z else Z.of_nat n),
            {| fds := (Z.of_nat n, SocketDesc) :: fds s;
               trace := trace s ++ [EvGetaddrinfo host port hints_inet_stream;
                                    EvSocket AF_INET SOCK_STREAM (Z.of_nat n);
                                    EvConnect (Z.of_nat n); EvFreeaddrinfo] |})
       end.
Proof using Type.
  clear MAX_BUFFER_SIZE_int.
  unfold connect_to_backend, getaddrinfo, sys_socket, sys_connect, freeaddrinfo,
    bind, ret, emit, add_fd.
  cbn [fst snd fds trace ai_family ai_socktype].
  destruct (negb (getaddrinfo_result e =? 0)%Z); [reflexivity|].
  destruct (socket_fd e) as [n|]; cbn [fds trace].
  - replace (Z.of_nat n <? 0)%Z with false by (symmetry; apply Z.ltb_ge; lia).
    destruct (negb (connect_result e =? 0)%Z); cbn [fds trace];
      repeat rewrite <- app_assoc; reflexivity.
  - cbn [Z.ltb Z.compare fds trace]. repeat rewrite <- app_assoc. reflexivity.
Qed.

(** X1.  [connect_to_backend] always returns: [-1] exactly when the
    resolution, the creation of the socket or the connect fails, and
    otherwise the descriptor of the connected socket, which is not negative
    and is open in the process. *)
Theorem connect_to_backend_returns_socket_or_minus_one
    (e : Env) (host port : string) (s : State) :
  exists r s',
    connect_to_backend e host port s = (Done r, s') /\
    ((backend_unreachable e /\ r = (-1)%Z) \/
     (exists sock, backend_reachable e sock /\ r = Z.of_nat sock /\
                   (0 <= r)%Z /\ lookup_fd r (fds s') = Some SocketDesc)).
Proof using Type.
  clear MAX_BUFFER_SIZE_int.
  rewrite connect_to_backend_cases. unfold backend_unreachable, backend_reachable.
  destruct (getaddrinfo_result e =? 0)%Z eqn:Eres; cbn [negb].
  - apply Z.eqb_eq in Eres. destruct (socket_fd e) as [n|] eqn:Esock.
    + destruct (connect_result e =? 0)%Z eqn:Econn; cbn [negb].
      * apply Z.eqb_eq in Econn. eexists. eexists. split; [reflexivity|].
        right. exists n. cbn [fds lookup_fd]. rewrite Z.eqb_refl.
        repeat split; try assumption; try reflexivity. lia.
      * apply Z.eqb_neq in Econn. eexists. eexists. split; [reflexivity|].
        left. split; [|reflexivity]. right. right. exact Econn.
    + eexists. eexists. split; [reflexivity|]. left. split; [|reflexivity].
      right. left. reflexivity.
  - apply Z.eqb_neq in Eres. eexists. eexists. split; [reflexivity|].
    left. split; [|reflexivity]. left. exact Eres.
Qed.

(** X2.  When the socket is created but the connect fails,
    [connect_to_backend] returns [-1] and leaves the socket open: no [close]
    is among its calls, and the caller, holding [-1], has no descriptor to
    close. *)
Theorem connect_failure_leaves_socket_open
    (e : Env) (host port : string) (sock : nat) (s : State) :
  getaddrinfo_result e = 0%Z ->
  socket_fd e = Some sock ->
  connect_result e <> 0%Z ->
  connect_to_backend e host port s =
  (Done (-1)%Z,
   {| fds := (Z.of_nat sock, SocketDesc) :: fds s;
      trace := trace s ++ [EvGetaddrinfo host port hints_inet_stream;
                           EvSocket AF_INET SOCK_STREAM (Z.of_nat sock);
                           EvConnect (Z.of_nat sock); EvFreeaddrinfo] |}).
Proof using Type.
  clear MAX_BUFFER_SIZE_int.
  intros Hres Hsock Hconn. rewrite connect_to_backend_cases, Hres, Hsock.
  cbn [Z.eqb negb].
  replace (connect_result e =? 0)%Z with false
    by (symmetry; apply Z.eqb_neq; exact Hconn).
  reflexivity.
Qed.

(** X3.  [connect_to_backend] releases the address list exactly once when the
    resolution succeeded, on each of the three ways out, and never when the
    resolution failed and no list was filled in. *)
Theorem connect_to_backend_frees_addrinfo_once
    (e : Env) (host port : string) (s : State) :
  exists t,
    trace (snd (connect_to_backend e host port s)) = (trace s ++ t)%list /\
    List.length (filter event_is_freeaddrinfo t) =
    (if (getaddrinfo_result e =? 0)%Z then 1 else 0).
Proof using Type.
  clear MAX_BUFFER_SIZE_int.
  rewrite connect_to_backend_cases.
  destruct (getaddrinfo_result e =? 0)%Z; cbn [negb].
  - destruct (socket_fd e) as [n|]; cbn [snd trace];
      eexists; (split; [reflexivity|]); reflexivity.
  - cbn [snd trace]. eexists. split; reflexivity.
Qed.

(** ** Further properties: the static responder *)

Lemma filter_fresh_fd (fd : Z) (table : list (Z * descriptor)) :
  lookup_fd fd table = None ->
  filter (fun p => negb (fst p =? fd)%Z) table = table.
Proof using Type.
  clear MAX_BUFFER_SIZE_int.
  induction table as [|[k d] table IH]; cbn [lookup_fd filter fst]; intro H;
    [reflexivity|].
  destruct (k =? fd)%Z; [discriminate|]. cbn [negb]. now rewrite IH.
Qed.

Lemma take_through_nul (n : nat) (a b : string) :
  String.length a < n ->
  exists t, take n (a ++ String NUL b) = a ++ String NUL t.
Proof using Type.
  clear MAX_BUFFER_SIZE_int.
  revert n; induction a as [|c a IH]; intros [|n] H; cbn [String.length] in H;
    try lia.
  - exists (take n b). reflexivity.
  - destruct (IH n) as [t Ht]; [lia|]. exists t. cbn [append take].
    now rewrite Ht.
Qed.

Lemma take_long (n : nat) (s : string) :
  n <= String.length s -> String.length (take n s) = n.
Proof using Type.
  clear MAX_BUFFER_SIZE_int.
  intro H. rewrite length_take. lia.
Qed.

Lemma drop_all (n : nat) (s : string) : String.length s <= n -> drop n s = "".
Proof using Type.
  clear MAX_BUFFER_SIZE_int.
  revert s; induction n as [|n IH]; intros [|c s] H; cbn [String.length drop] in *;
    try reflexivity; try lia.
  apply IH. lia.
Qed.

(** X4.  The 404 of the static responder is the answer to a file that
    [access] accepts and [open] cannot open (no descriptor is free): the two
    calls are made, and no descriptor is open afterwards. *)
Theorem static_open_failure_is_404
    (e : Env) (request_ptr : HTTPRequest) (root content : string) :
  static_request request_ptr ->
  realpath e BASE_DIR = Some root ->
  (Z.of_nat (String.length (root ++ "/" ++ c_str (path request_ptr))) <= INT_MAX)%Z ->
  fs e (static_filepath root request_ptr) = Regular content ->
  open_fd e = None ->
  run (request_handler e request_ptr) =
  (Done (response_builder 404 "Not Found" "<h1>404 Not Found</h1>"),
   {| fds := [];
      trace := [EvAccess (static_filepath root request_ptr);
                EvOpen (static_filepath root request_ptr) (-1)] |}).
Proof using Type.
  clear MAX_BUFFER_SIZE_int.
  intros Hstatic Hroot Hlen Hfs Hopen. rewrite (handler_static _ _ Hstatic).
  unfold run. rewrite (static_prefix _ _ _ _ Hroot Hlen).
  unfold sys_access, sys_open, bind, ret, emit. rewrite Hfs, Hopen. reflexivity.
Qed.

(** X5.  The static responder keeps the descriptor table: whenever it
    answers, whatever the answer, the descriptors open afterwards are those
    open before, given that [open] hands out a descriptor that was free. *)
Theorem static_responder_keeps_descriptors
    (e : Env) (request_ptr : HTTPRequest) (s s' : State) (r : HTTPResponse) :
  static_request request_ptr ->
  (forall n, open_fd e = Some n -> lookup_fd (Z.of_nat n) (fds s) = None) ->
  request_handler e request_ptr s = (Done r, s') ->
  fds s' = fds s.
Proof using Type.
  clear MAX_BUFFER_SIZE_int.
  intros Hstatic Hfresh. rewrite (handler_static _ _ Hstatic).
  unfold static_responder.
  destruct (realpath e BASE_DIR) as [root|]; [|discriminate].
  destruct (fst (snprintf PATH_MAX (root ++ "/" ++ c_str (path request_ptr))) <? 0)%Z.
  { unfold ret. intro H. injection H as _ <-. reflexivity. }
  unfold sys_access, sys_open, sys_read, sys_close, array_c_str, get_fd, add_fd,
    remove_fd, bind, ret, emit, undefined.
  cbn [fds trace].
  destruct (fs e (snd (snprintf PATH_MAX (root ++ "/" ++ c_str (path request_ptr)))))
    as [| |content]; cbn [Z.eqb negb].
  - intro H. injection H as _ <-. reflexivity.
  - intro H. injection H as _ <-. reflexivity.
  - destruct (open_fd e) as [n|] eqn:Hopen; cbn [fds trace].
    + replace (Z.of_nat n =? -1)%Z with false by (symmetry; apply Z.eqb_neq; lia).
      cbn [fds trace lookup_fd]. rewrite Z.eqb_refl. cbn [fst snd].
      destruct (has_nul _); [|discriminate].
      cbn [fds trace filter fst]. rewrite Z.eqb_refl. cbn [negb].
      intro H. injection H as _ <-. cbn [fds].
      apply filter_fresh_fd, Hfresh. reflexivity.
    + cbn [Z.eqb]. intro H. injection H as _ <-. reflexivity.
Qed.

(** X6.  A file with a NUL byte is served cut at that byte: the body of the
    200 response is the part of the file before its first NUL, whatever lay
    in the buffer. *)
Theorem static_file_is_cut_at_first_nul
    (e : Env) (request_ptr : HTTPRequest) (root before after : string) (fd : nat) :
  static_request request_ptr ->
  realpath e BASE_DIR = Some root ->
  (Z.of_nat (String.length (root ++ "/" ++ c_str (path request_ptr))) <= INT_MAX)%Z ->
  fs e (static_filepath root request_ptr) = Regular (before ++ String NUL after) ->
  open_fd e = Some fd ->
  has_nul before = false ->
  String.length before < MAX_BUFFER_SIZE ->
  fst (run (request_handler e request_ptr)) =
  Done (response_builder 200 "OK" before).
Proof using Type.
  clear MAX_BUFFER_SIZE_int.
  intros Hstatic Hroot Hlen Hfs Hopen Hbefore Hshort.
  rewrite (handler_static _ _ Hstatic). unfold run.
  rewrite (static_prefix _ _ _ _ Hroot Hlen).
  unfold sys_access, sys_open, sys_read, sys_close, array_c_str, get_fd, add_fd,
    remove_fd, bind, ret, emit.
  rewrite Hfs, Hopen. cbn [Z.eqb negb fds trace initial_state app lookup_fd fst snd].
  replace (Z.of_nat fd =? -1)%Z with false by (symmetry; apply Z.eqb_neq; lia).
  cbn [fds trace app lookup_fd]. rewrite Z.eqb_refl. cbn [fst snd].
  destruct (take_through_nul MAX_BUFFER_SIZE before after Hshort) as [t Ht].
  unfold overwrite. rewrite Ht, append_assoc.
  rewrite has_nul_append.
  replace (has_nul (String NUL t ++ _)) with true by reflexivity.
  rewrite orb_true_r. cbn [fst].
  change (String NUL t ++ ?x) with (String NUL (t ++ x)).
  now rewrite (c_str_append_nul before _ Hbefore).
Qed.

(** X7.  A file that fills the buffer is not cut at the buffer size: when its
    first [MAX_BUFFER_SIZE] bytes hold no NUL, the array is left without
    terminator and reading it as the body runs past its end, with the file
    still open. *)
Theorem static_file_filling_buffer_overruns
    (e : Env) (request_ptr : HTTPRequest) (root content : string) (fd : nat) :
  static_request request_ptr ->
  realpath e BASE_DIR = Some root ->
  (Z.of_nat (String.length (root ++ "/" ++ c_str (path request_ptr))) <= INT_MAX)%Z ->
  fs e (static_filepath root request_ptr) = Regular content ->
  open_fd e = Some fd ->
  MAX_BUFFER_SIZE <= String.length content ->
  has_nul (take MAX_BUFFER_SIZE content) = false ->
  run (request_handler e request_ptr) =
  (Undefined "string read runs past the end of the array",
   {| fds := [(Z.of_nat fd, FileDesc content)];
      trace := [EvAccess (static_filepath root request_ptr);
                EvOpen (static_filepath root request_ptr) (Z.of_nat fd);
                EvRead (Z.of_nat fd)] |}).
Proof using Type.
  clear MAX_BUFFER_SIZE_int.
  intros Hstatic Hroot Hlen Hfs Hopen Hlong Hnul.
  rewrite (handler_static _ _ Hstatic). unfold run.
  rewrite (static_prefix _ _ _ _ Hroot Hlen).
  unfold sys_access, sys_open, sys_read, sys_close, array_c_str, get_fd, add_fd,
    remove_fd, bind, ret, emit, undefined.
  rewrite Hfs, Hopen. cbn [Z.eqb negb fds trace initial_state app lookup_fd fst snd].
  replace (Z.of_nat fd =? -1)%Z with false by (symmetry; apply Z.eqb_neq; lia).
  cbn [fds trace app lookup_fd]. rewrite Z.eqb_refl. cbn [fst snd].
  unfold overwrite. rewrite (take_long _ _ Hlong).
  rewrite drop_all by (rewrite length_take; lia).
  rewrite append_nil_r, Hnul. reflexivity.
Qed.

(** X8.  The path of the file is cut at [PATH_MAX - 1] bytes without notice:
    two static requests whose composed paths agree on these bytes are
    answered alike, whatever follows in the longer path. *)
Theorem static_long_paths_are_cut
    (e : Env) (r1 r2 : HTTPRequest) (root : string) (s : State) :
  static_request r1 ->
  static_request r2 ->
  realpath e BASE_DIR = Some root ->
  (Z.of_nat (String.length (root ++ "/" ++ c_str (path r1))) <= INT_MAX)%Z ->
  (Z.of_nat (String.length (root ++ "/" ++ c_str (path r2))) <= INT_MAX)%Z ->
  take (PATH_MAX - 1) (root ++ "/" ++ c_str (path r1)) =
  take (PATH_MAX - 1) (root ++ "/" ++ c_str (path r2)) ->
  request_handler e r1 s = request_handler e r2 s.
Proof using Type.
  clear MAX_BUFFER_SIZE_int.
  intros H1 H2 Hroot Hl1 Hl2 Hcut.
  rewrite (handler_static _ _ H1), (handler_static _ _ H2).
  rewrite (static_prefix _ _ _ _ Hroot Hl1), (static_prefix _ _ _ _ Hroot Hl2).
  unfold static_filepath. rewrite Hcut. reflexivity.
Qed.

(** X9.  Outside the proxy the method, the body and the body length play no
    part: two requests with the same path that are not proxied get the same
    answer, so a file is served to any method. *)
Theorem unproxied_answer_depends_on_path_only
    (e : Env) (r1 r2 : HTTPRequest) (s : State) :
  path r1 = path r2 ->
  ~ proxied r1 ->
  request_handler e r1 s = request_handler e r2 s.
Proof using Type.
  clear MAX_BUFFER_SIZE_int.
  intros Hpath Hnot. unfold proxied in Hnot. unfold request_handler.
  rewrite <- Hpath.
  destruct (strtok (strdup (path r1)) "/") as [token|]; [|reflexivity].
  destruct (strcmp token "static" =? 0)%Z.
  - unfold static_responder. rewrite <- Hpath. reflexivity.
  - destruct (strcmp token "api" =? 0)%Z eqn:E; [|reflexivity].
    exfalso. apply Hnot. apply Z.eqb_eq, strcmp_eq in E. now subst token.
Qed.

(** ** Further properties: the answers of the handler *)

Lemma api_path_cases (request_ptr : HTTPRequest) (s : State) :
  api_path_of request_ptr s =
  if (4 <=? String.length (path request_ptr))%nat
  then (Done (forwarded_path request_ptr), s)
  else (Undefined "pointer moved past the string terminator", s).
Proof using Type.
  clear MAX_BUFFER_SIZE_int.
  unfold api_path_of, ptr_add, bind, ret, undefined.
  change (strlen "/api") with 4.
  destruct (4 <=? String.length (path request_ptr))%nat; reflexivity.
Qed.

Lemma exchange_answers (e : Env) (fd : Z) (proxy_request : string) (len : Z)
    (s s' : State) (r : HTTPResponse) :
  backend_exchange e fd proxy_request len s = (Done r, s') ->
  (r = response_builder 502 "Bad Gateway"
         "<h1>502 Bad Gateway: Failed to Read from Backend</h1>" /\
   recv_data e = None) \/
  (status_code r = 200%Z /\ status_text r = "OK" /\
   exists reply, recv_data e = Some reply).
Proof using Type.
  clear MAX_BUFFER_SIZE_int.
  unfold backend_exchange, sys_send, sys_recv, sys_close, remove_fd, bind, ret,
    emit, undefined.
  destruct (Z.of_nat MAX_BUFFER_SIZE <? len)%Z; [discriminate|].
  destruct (recv_data e) as [reply|]; cbn [fst snd fds trace].
  - replace (Z.of_nat (String.length (take MAX_BUFFER_SIZE reply)) <? 0)%Z
      with false by (symmetry; apply Z.ltb_ge; lia).
    destruct (MAX_BUFFER_SIZE <=? _)%nat; [discriminate|].
    intro H. injection H as <- _. right. repeat split. now exists reply.
  - cbn [Z.ltb Z.compare]. intro H. injection H as <- _. left. now split.
Qed.

Lemma proxy_answers (e : Env) (request_ptr : HTTPRequest)
    (s s' : State) (r : HTTPResponse) :
  proxy_responder e request_ptr s = (Done r, s') ->
  (r = response_builder 500 "Internal Server Error"
         "<h1>proxy snprintf() error</h1>" /\
   s' = s /\
   (INT_MAX < Z.of_nat (String.length (outbound_head request_ptr)))%Z) \/
  (r = response_builder 502 "Bad Gateway"
         "<h1>502 Bad Gateway: Backend Unavailable</h1>" /\
   backend_unreachable e) \/
  (r = response_builder 502 "Bad Gateway"
         "<h1>502 Bad Gateway: Failed to Read from Backend</h1>" /\
   (exists sock, backend_reachable e sock) /\ recv_data e = None) \/
  (status_code r = 200%Z /\ status_text r = "OK" /\
   (exists sock, backend_reachable e sock) /\
   exists reply, recv_data e = Some reply).
Proof using Type.
  clear MAX_BUFFER_SIZE_int.
  unfold proxy_responder. unfold bind at 1. rewrite api_path_cases.
  destruct (4 <=? String.length (path request_ptr))%nat; [|discriminate].
  fold (outbound_head request_ptr). unfold snprintf. cbn [fst snd].
  destruct (INT_MAX <? Z.of_nat (String.length (outbound_head request_ptr)))%Z eqn:E.
  - cbn [Z.ltb Z.compare]. unfold ret. intro H. injection H as <- <-.
    left. repeat split. now apply Z.ltb_lt.
  - replace (Z.of_nat (String.length (outbound_head request_ptr)) <? 0)%Z
      with false by (symmetry; apply Z.ltb_ge; lia).
    unfold strncat, bind at 1, ret at 1, undefined at 1.
    destruct (_ <=? MAX_BUFFER_SIZE)%nat; [|discriminate].
    unfold bind at 1. rewrite connect_to_backend_cases.
    unfold backend_unreachable, backend_reachable.
    destruct (getaddrinfo_result e =? 0)%Z eqn:Eres; cbn [negb].
    + apply Z.eqb_eq in Eres. destruct (socket_fd e) as [n|] eqn:Esock.
      * destruct (connect_result e =? 0)%Z eqn:Econn; cbn [negb].
        -- apply Z.eqb_eq in Econn.
           replace (Z.of_nat n =? -1)%Z with false
             by (symmetry; apply Z.eqb_neq; lia).
           intro H. apply exchange_answers in H. right. right.
           destruct H as [[-> Hnone] | (H1 & H2 & H3)].
           ++ left. repeat split; try assumption. now exists n.
           ++ right. repeat split; try assumption. now exists n.
        -- apply Z.eqb_neq in Econn. cbn [Z.eqb]. unfold ret.
           intro H. injection H as <- _. right. left. split; [reflexivity|].
           right. right. exact Econn.
      * cbn [Z.eqb]. unfold ret. intro H. injection H as <- _. right. left.
        split; [reflexivity|]. right. now left.
    + apply Z.eqb_neq in Eres. cbn [Z.eqb]. unfold ret.
      intro H. injection H as <- _. right. left. split; [reflexivity|].
      left. exact Eres.
Qed.

Lemma static_answers (e : Env) (request_ptr : HTTPRequest)
    (s s' : State) (r : HTTPResponse) :
  static_responder e request_ptr s = (Done r, s') ->
  exists root,
    realpath e BASE_DIR = Some root /\
    (r = response_builder 404 "Not Found" "<h1>snprintf() error</h1>" \/
     (r = response_builder 403 "Forbidden" "<h1>403 Forbidden</h1>" /\
      forall content, fs e (static_filepath root request_ptr) <> Regular content) \/
     (r = response_builder 404 "Not Found" "<h1>404 Not Found</h1>" /\
      (exists content, fs e (static_filepath root request_ptr) = Regular content) /\
      open_fd e = None) \/
     (status_code r = 200%Z /\ status_text r = "OK" /\
      exists content, fs e (static_filepath root request_ptr) = Regular content)).
Proof using Type.
  clear MAX_BUFFER_SIZE_int.
  unfold static_responder.
  destruct (realpath e BASE_DIR) as [root|]; [|discriminate].
  intro H. exists root. split; [reflexivity|]. revert H.
  destruct (fst (snprintf PATH_MAX (root ++ "/" ++ c_str (path request_ptr))) <? 0)%Z.
  { unfold ret. intro H. injection H as <- _. now left. }
  unfold sys_access, sys_open, sys_read, sys_close, array_c_str, get_fd, add_fd,
    remove_fd, bind, ret, emit, undefined.
  cbn [fds trace].
  change (snd (snprintf PATH_MAX (root ++ "/" ++ c_str (path request_ptr))))
    with (static_filepath root request_ptr).
  destruct (fs e (static_filepath root request_ptr)) as [| |content];
    cbn [Z.eqb negb].
  - intro H. injection H as <- _. right. left. split; [reflexivity | discriminate].
  - intro H. injection H as <- _. right. left. split; [reflexivity | discriminate].
  - destruct (open_fd e) as [n|]; cbn [fds trace].
    + replace (Z.of_nat n =? -1)%Z with false by (symmetry; apply Z.eqb_neq; lia).
      cbn [fds trace lookup_fd]. rewrite Z.eqb_refl. cbn [fst snd].
      destruct (has_nul _); [|discriminate].
      intro H. injection H as <- _. right. right. right.
      repeat split. now exists content.
    + cbn [Z.eqb]. intro H. injection H as <- _. right. right. left.
      repeat split. now exists content.
Qed.

Lemma handler_branch (e : Env) (request_ptr : HTTPRequest) :
  (static_request request_ptr /\
   request_handler e request_ptr = static_responder e request_ptr) \/
  (proxied request_ptr /\
   request_handler e request_ptr = proxy_responder e request_ptr) \/
  (unrouted request_ptr /\
   request_handler e request_ptr =
   ret (response_builder 404 "Not Found" "<h1>404 Not Found</h1>")).
Proof using Type.
  clear MAX_BUFFER_SIZE_int.
  unfold static_request, proxied, unrouted, request_handler.
  destruct (strtok (strdup (path request_ptr)) "/") as [token|];
    [|right; right; split; [exact I | reflexivity]].
  destruct (strcmp token "static" =? 0)%Z eqn:E1.
  - apply Z.eqb_eq, strcmp_eq in E1. subst token. left. split; reflexivity.
  - destruct (strcmp token "api" =? 0)%Z eqn:E2.
    + apply Z.eqb_eq, strcmp_eq in E2. subst token. right. left.
      split; reflexivity.
    + right. right. split; [|reflexivity]. split; intros ->;
        rewrite strcmp_refl in *; discriminate.
Qed.

(** X10.  Whatever the request and the machine, an answer of
    [request_handler] is either a 200 with the text "OK" or one of six
    fixed responses: 403, 404 (two bodies), 500 and 502 (two bodies), each
    with its own status text and a constant body; no other status code is
    ever produced, and only a 200 carries bytes of a file or of the backend. *)
Theorem handler_answers_200_or_fixed_error
    (e : Env) (request_ptr : HTTPRequest) (s s' : State) (r : HTTPResponse) :
  request_handler e request_ptr s = (Done r, s') ->
  In r error_responses \/ (status_code r = 200%Z /\ status_text r = "OK").
Proof using Type.
  clear MAX_BUFFER_SIZE_int.
  unfold error_responses. cbn [In].
  destruct (handler_branch e request_ptr) as [[_ ->] | [[_ ->] | [_ ->]]]; intro H.
  - apply static_answers in H.
    destruct H as (root & _ & [-> | [[-> _] | [[-> _] | (H1 & H2 & _)]]]); auto 8.
  - apply proxy_answers in H.
    destruct H as [[-> _] | [[-> _] | [[-> _] | (H1 & H2 & _)]]]; auto 10.
  - unfold ret in H. injection H as <- _. auto 8.
Qed.

(** X11.  The 500 of the proxy answers one thing only, a formatted head too
    long for an [int]: such a request gets the 500 before any system call,
    and a request whose head an [int] can count never gets a 500, however
    small the buffer is. *)
Theorem proxy_500_only_beyond_int
    (e : Env) (request_ptr : HTTPRequest) (s : State) :
  proxied request_ptr ->
  4 <= String.length (path request_ptr) ->
  ((INT_MAX < Z.of_nat (String.length (outbound_head request_ptr)))%Z ->
   request_handler e request_ptr s =
   (Done (response_builder 500 "Internal Server Error"
            "<h1>proxy snprintf() error</h1>"), s)) /\
  ((Z.of_nat (String.length (outbound_head request_ptr)) <= INT_MAX)%Z ->
   forall r s', request_handler e request_ptr s = (Done r, s') ->
                status_code r <> 500%Z).
Proof using Type.
  clear MAX_BUFFER_SIZE_int.
  intros Hprox Hpath. rewrite (handler_api _ _ Hprox). split.
  - intro Hbig. unfold proxy_responder. unfold bind at 1.
    rewrite (api_path_framed _ _ Hpath). fold (outbound_head request_ptr).
    unfold snprintf. cbn [fst snd].
    replace (INT_MAX <? _)%Z with true by (symmetry; apply Z.ltb_lt; exact Hbig).
    reflexivity.
  - intros Hsmall r s' H. apply proxy_answers in H.
    destruct H as [(_ & _ & Hbig) | [[-> _] | [[-> _] | [H _]]]].
    + lia.
    + discriminate.
    + discriminate.
    + rewrite H. discriminate.
Qed.

(** ** Further properties: the bounds of the proxy buffers *)

(** X12.  A backend reply that fills the receive buffer is not cut: [recv]
    returns [MAX_BUFFER_SIZE] and the terminator is written one byte past
    the end of [proxy_response], before the socket is closed. *)
Theorem proxy_reply_filling_buffer_overruns
    (e : Env) (request_ptr : HTTPRequest) (sock : nat) (reply : string) :
  proxied request_ptr ->
  framed request_ptr ->
  backend_reachable e sock ->
  recv_data e = Some reply ->
  MAX_BUFFER_SIZE <= String.length reply ->
  run (request_handler e request_ptr) =
  (Undefined "terminator written past the end of the array",
   {| fds := [(Z.of_nat sock, SocketDesc)];
      trace := [EvGetaddrinfo "localhost" "8000" hints_inet_stream;
                EvSocket AF_INET SOCK_STREAM (Z.of_nat sock);
                EvConnect (Z.of_nat sock); EvFreeaddrinfo;
                EvSend (Z.of_nat sock) (outbound_head request_ptr);
                EvRecv (Z.of_nat sock)] |}).
Proof using MAX_BUFFER_SIZE_int.
  intros Hprox Hframed Hreach Hrecv Hlong.
  rewrite (handler_api _ _ Hprox), (proxy_reachable _ _ _ Hframed Hreach).
  unfold backend_exchange. rewrite (exchange_send _ _ _ (framed_head _ Hframed)).
  unfold sys_send, sys_recv, bind, ret, emit, undefined. rewrite Hrecv.
  cbn [fst snd fds trace app]. rewrite (take_long _ _ Hlong).
  replace (Z.of_nat MAX_BUFFER_SIZE <? 0)%Z with false
    by (symmetry; apply Z.ltb_ge; lia).
  rewrite Nat2Z.id, Nat.leb_refl. reflexivity.
Qed.

(** X13.  A head longer than the buffer is cut by [snprintf], yet its full
    length is what [send] is given: with no body to append and the backend
    connected, [send] reads past the end of [proxy_request]. *)
Theorem proxy_long_head_send_overruns
    (e : Env) (request_ptr : HTTPRequest) (sock : nat) :
  proxied request_ptr ->
  4 <= String.length (path request_ptr) ->
  0 < MAX_BUFFER_SIZE ->
  MAX_BUFFER_SIZE < String.length (outbound_head request_ptr) ->
  (Z.of_nat (String.length (outbound_head request_ptr)) <= INT_MAX)%Z ->
  outbound_body request_ptr = "" ->
  backend_reachable e sock ->
  run (request_handler e request_ptr) =
  (Undefined "send reads past the end of the array",
   {| fds := [(Z.of_nat sock, SocketDesc)];
      trace := [EvGetaddrinfo "localhost" "8000" hints_inet_stream;
                EvSocket AF_INET SOCK_STREAM (Z.of_nat sock);
                EvConnect (Z.of_nat sock); EvFreeaddrinfo] |}).
Proof using Type.
  clear MAX_BUFFER_SIZE_int.
  intros Hprox Hpath Hpos Hlong Hint Hbody Hreach.
  rewrite (handler_api _ _ Hprox). unfold run, proxy_responder.
  unfold bind at 1. rewrite (api_path_framed _ _ Hpath).
  fold (outbound_head request_ptr). unfold snprintf. cbn [fst snd].
  replace (INT_MAX <? _)%Z with false by (symmetry; apply Z.ltb_ge; exact Hint).
  replace (Z.of_nat (String.length (outbound_head request_ptr)) <? 0)%Z
    with false by (symmetry; apply Z.ltb_ge; lia).
  unfold strncat. fold (outbound_body request_ptr). rewrite Hbody.
  cbn [String.length]. rewrite take_long by lia.
  replace (MAX_BUFFER_SIZE - 1 + 0 + 1 <=? MAX_BUFFER_SIZE)%nat with true
    by (symmetry; apply Nat.leb_le; lia).
  unfold bind at 1, ret at 1. unfold bind at 1.
  rewrite (connect_reachable _ _ _ _ _ Hreach).
  replace (Z.of_nat sock =? -1)%Z with false by (symmetry; apply Z.eqb_neq; lia).
  unfold backend_exchange.
  replace (Z.of_nat MAX_BUFFER_SIZE
           <? Z.of_nat (String.length (outbound_head request_ptr)))%Z
    with true by (symmetry; apply Z.ltb_lt; lia).
  reflexivity.
Qed.

(** ** Further properties: the serving loop *)


Lemma serve_never_returns (cs : list Connection) (s : State) (code : Z) :
  fst (serve cs s) <> Done (Returned code).
Proof using Type.
  clear MAX_BUFFER_SIZE_int.
  revert s; induction cs as [|c cs IH]; intro s; cbn [serve].
  - discriminate.
  - unfold bind. destruct (serve_one c s) as [[[]|why] s1]; [apply IH | discriminate].
Qed.

(** X14.  [launch] returns for two reasons only: a return is the bind error
    after the failed [bind] alone, or the listen error after the failed
    [listen]; once both calls succeed it never returns, whatever the clients
    send. *)
Theorem launch_returns_only_startup_errors (h : Host) (code : Z) (s' : State) :
  run (launch h) = (Done (Returned code), s') ->
  ((bind_result h < 0)%Z /\ code = SOCKET_BIND_ERROR /\ trace s' = [EvBind]) \/
  ((0 <= bind_result h)%Z /\ (listen_result h < 0)%Z /\
   code = SOCKET_LISTEN_ERROR /\ trace s' = [EvBind; EvListen]).
Proof using Type.
  clear MAX_BUFFER_SIZE_int.
  unfold run, launch, sys_bind, sys_listen, bind, ret, emit.
  cbn [initial_state fds trace app].
  destruct (bind_result h <? 0)%Z eqn:Eb.
  - apply Z.ltb_lt in Eb. intro H. injection H as <- <-. left. auto.
  - apply Z.ltb_ge in Eb. destruct (listen_result h <? 0)%Z eqn:El.
    + apply Z.ltb_lt in El. intro H. injection H as <- <-. right. auto.
    + intro H. exfalso. eapply serve_never_returns. rewrite H. reflexivity.
Qed.









(** ** Further properties: what each answer tells *)

(** X17.  A 502 is the answer of the proxy alone, and its body names the
    step that failed: "Backend Unavailable" is answered only when the
    resolution, the socket or the connect failed, "Failed to Read from
    Backend" only when the backend was connected and the read failed. *)
Theorem bad_gateway_names_the_failed_step
    (e : Env) (request_ptr : HTTPRequest) (s s' : State) (r : HTTPResponse) :
  request_handler e request_ptr s = (Done r, s') ->
  status_code r = 502%Z ->
  proxied request_ptr /\
  ((response_body r = "<h1>502 Bad Gateway: Backend Unavailable</h1>" /\
    backend_unreachable e) \/
   (response_body r = "<h1>502 Bad Gateway: Failed to Read from Backend</h1>" /\
    (exists sock, backend_reachable e sock) /\ recv_data e = None)).
Proof using Type.
  clear MAX_BUFFER_SIZE_int.
  destruct (handler_branch e request_ptr) as [[_ ->] | [[Hprox ->] | [_ ->]]];
    intros H Hcode.
  - apply static_answers in H.
    destruct H as (root & _ & [-> | [[-> _] | [[-> _] | (H1 & _)]]]);
      try discriminate. rewrite H1 in Hcode. discriminate.
  - split; [exact Hprox|]. apply proxy_answers in H.
    destruct H as [[-> _] | [[-> Hdown] | [[-> Hup] | (H1 & _)]]].
    + discriminate.
    + left. split; [reflexivity | exact Hdown].
    + right. split; [reflexivity | exact Hup].
    + rewrite H1 in Hcode. discriminate.
  - unfold ret in H. injection H as <- _. discriminate.
Qed.

(** X18.  The static errors tell less than their names: a 403 is answered
    only to a static request whose file [access] refuses, be it unreadable
    or absent, and a 404 is answered only to a request that goes to neither
    responder, or to a static request whose path could not be formatted or
    whose file exists, is readable and could not be opened; an absent file
    never gets a 404. *)
Theorem static_errors_name_their_cause
    (e : Env) (request_ptr : HTTPRequest) (s s' : State) (r : HTTPResponse) :
  request_handler e request_ptr s = (Done r, s') ->
  (status_code r = 403%Z ->
   static_request request_ptr /\
   exists root, realpath e BASE_DIR = Some root /\
     forall content, fs e (static_filepath root request_ptr) <> Regular content) /\
  (status_code r = 404%Z ->
   unrouted request_ptr \/
   (static_request request_ptr /\
    (response_body r = "<h1>snprintf() error</h1>" \/
     exists root content,
       realpath e BASE_DIR = Some root /\
       fs e (static_filepath root request_ptr) = Regular content /\
       open_fd e = None))).
Proof using Type.
  clear MAX_BUFFER_SIZE_int.
  destruct (handler_branch e request_ptr) as [[Hst ->] | [[_ ->] | [Hun ->]]];
    intro H.
  - apply static_answers in H.
    destruct H as (root & Hroot & [-> | [[-> Hno] | [[-> [[c Hc] Ho]] | (H1 & _)]]]).
    + split; [discriminate|]. intros _. right. split; [exact Hst | now left].
    + split; [|discriminate]. intros _. split; [exact Hst|]. now exists root.
    + split; [discriminate|]. intros _. right. split; [exact Hst|].
      right. now exists root, c.
    + split; intro Hcode; rewrite H1 in Hcode; discriminate.
  - apply proxy_answers in H.
    destruct H as [[-> _] | [[-> _] | [[-> _] | (H1 & _)]]];
      try (split; discriminate).
    split; intro Hcode; rewrite H1 in Hcode; discriminate.
  - unfold ret in H. injection H as <- _. split; [discriminate|]. intros _.
    now left.
Qed.

(** X19.  A 200 is answered only after data was obtained: to a static
    request whose file exists and is readable, or to a proxied request whose
    backend was connected and delivered a reply (possibly empty). *)
Theorem ok_follows_a_file_or_a_reply
    (e : Env) (request_ptr : HTTPRequest) (s s' : State) (r : HTTPResponse) :
  request_handler e request_ptr s = (Done r, s') ->
  status_code r = 200%Z ->
  (static_request request_ptr /\
   exists root content,
     realpath e BASE_DIR = Some root /\
     fs e (static_filepath root request_ptr) = Regular content) \/
  (proxied request_ptr /\ (exists sock, backend_reachable e sock) /\
   exists reply, recv_data e = Some reply).
Proof using Type.
  clear MAX_BUFFER_SIZE_int.
  destruct (handler_branch e request_ptr) as [[Hst ->] | [[Hprox ->] | [_ ->]]];
    intros H Hcode.
  - left. split; [exact Hst|]. apply static_answers in H.
    destruct H as (root & Hroot & [-> | [[-> _] | [[-> _] | (_ & _ & [c Hc])]]]);
      try discriminate.
    now exists root, c.
  - right. split; [exact Hprox|]. apply proxy_answers in H.
    destruct H as [[-> _] | [[-> _] | [[-> _] | (_ & _ & Hup & Hreply)]]];
      try discriminate.
    now split.
  - unfold ret in H. injection H as <- _. discriminate.
Qed.

End Server.

(** ** The statements at concrete requests *)

Lemma buffer_1024_int : (Z.of_nat 1024 <= INT_MAX)%Z.
Proof. vm_compute. discriminate. Defined.

Lemma router_dispatches_on_first_token_witness :
  request_handler 1024 4096 "." (machine no_files "" (Some reply_created))
                  (request "GET" "/api/x" "") =
  proxy_responder 1024 (machine no_files "" (Some reply_created))
                  (request "GET" "/api/x" "") /\
  forall s, api_path_of (request "GET" "/api/x" "") s = (Done "/x", s).
Proof.
  destruct (router_dispatches_on_first_token 1024 4096 "."
              (machine no_files "" (Some reply_created))
              (request "GET" "/api/x" "") 1 "api" "/x")
    as (_ & H & _).
  - reflexivity.
  - reflexivity.
  - right. reflexivity.
  - destruct (H eq_refl) as [H1 H2]. split; [exact H1|].
    intro s. exact (H2 "/x" s eq_refl).
Defined.

(** C1, with the segment read as the portion between the leading slash and
    the next slash, fails on the path ["//api/x"]: that portion is empty, which
    calls for the 404 response, but the request is proxied, and the path sent
    on is ["i/x"], not ["/x"]. *)
Lemma router_double_slash_counterexample :
  spec_first_segment (path (request "GET" "//api/x" "")) = "" /\
  fst (run (request_handler 1024 4096 "."
              (machine no_files "" (Some reply_created))
              (request "GET" "//api/x" ""))) <>
  Done (response_builder 404 "Not Found" "<h1>404 Not Found</h1>") /\
  forwarded_path (request "GET" "//api/x" "") = "i/x".
Proof.
  split; [reflexivity|]. split; [|reflexivity].
  vm_compute. discriminate.
Qed.

Lemma router_segment_is_case_sensitive_witness :
  run (request_handler 1024 4096 "." (machine no_files "" None)
                       (request "GET" "/Static/f" "")) =
  (Done (response_builder 404 "Not Found" "<h1>404 Not Found</h1>"), initial_state) /\
  run (request_handler 1024 4096 "." (machine no_files "" None)
                       (request "GET" "/API/x" "")) =
  (Done (response_builder 404 "Not Found" "<h1>404 Not Found</h1>"), initial_state).
Proof.
  split.
  - apply (router_segment_is_case_sensitive 1024 4096 "." _ _ 1 "Static" "/f");
      [reflexivity | reflexivity | right; reflexivity | left; reflexivity
      | discriminate | discriminate].
  - apply (router_segment_is_case_sensitive 1024 4096 "." _ _ 1 "API" "/x");
      [reflexivity | reflexivity | right; reflexivity | right; reflexivity
      | discriminate | discriminate].
Defined.

Lemma static_missing_or_unreadable_is_403_witness :
  run (request_handler 1024 4096 "." (machine no_files "" None)
                       (request "GET" "/static/nope.html" "")) =
  (Done (response_builder 403 "Forbidden" "<h1>403 Forbidden</h1>"),
   {| fds := []; trace := [EvAccess "/srv/www//static/nope.html"] |}) /\
  run (request_handler 1024 4096 "."
         (machine (locked_file "/srv/www//static/secret.txt") "" None)
         (request "GET" "/static/secret.txt" "")) =
  (Done (response_builder 403 "Forbidden" "<h1>403 Forbidden</h1>"),
   {| fds := []; trace := [EvAccess "/srv/www//static/secret.txt"] |}).
Proof.
  split.
  - apply (static_missing_or_unreadable_is_403 1024 4096 "."
             (machine no_files "" None)
             (request "GET" "/static/nope.html" "") "/srv/www").
    + reflexivity.
    + reflexivity.
    + vm_compute. discriminate.
    + left. reflexivity.
  - apply (static_missing_or_unreadable_is_403 1024 4096 "."
             (machine (locked_file "/srv/www//static/secret.txt") "" None)
             (request "GET" "/static/secret.txt" "") "/srv/www").
    + reflexivity.
    + reflexivity.
    + vm_compute. discriminate.
    + right. reflexivity.
Defined.

Lemma static_body_runs_into_stale_bytes_witness :
  run (request_handler 1024 4096 "."
         (machine (one_file "/srv/www//static/index.html" "<p>hi</p>")
                  stale_stack None)
         (request "GET" "/static/index.html" "")) =
  (Done (response_builder 200 "OK" "<p>hi</p>XXXXXX"),
   {| fds := [];
      trace := [EvAccess "/srv/www//static/index.html";
                EvOpen "/srv/www//static/index.html" 3; EvRead 3; EvClose 3] |}).
Proof.
  apply (static_body_runs_into_stale_bytes 1024 4096 "."
           (machine (one_file "/srv/www//static/index.html" "<p>hi</p>")
                    stale_stack None)
           (request "GET" "/static/index.html" "")
           "/srv/www" "<p>hi</p>" "XXXXXX" (zeros 1008) 3).
  - reflexivity.
  - reflexivity.
  - vm_compute. discriminate.
  - reflexivity.
  - reflexivity.
  - reflexivity.
  - reflexivity.
  - reflexivity.
Defined.

Lemma framed_get_widgets : framed 1024 (request "GET" "/api/widgets" "").
Proof. split; apply Nat.leb_le; reflexivity. Defined.

Lemma framed_post_hello : framed 1024 (request "POST" "/api/x" "hello").
Proof. split; apply Nat.leb_le; reflexivity. Defined.

Lemma machine_reachable (files : string -> file_state) (stale : string)
    (reply : option string) :
  backend_reachable (machine files stale reply) 4.
Proof. repeat split. Defined.

Lemma proxy_reply_gives_200_and_text_after_separator_witness :
  fst (run (request_handler 1024 4096 "."
              (machine no_files "" (Some reply_created))
              (request "GET" "/api/widgets" ""))) =
  Done (response_builder 200 "OK" "{id:1}").
Proof.
  apply (proxy_reply_gives_200_and_text_after_separator 1024 4096 "."
           buffer_1024_int (machine no_files "" (Some reply_created))
           (request "GET" "/api/widgets" "") 4 reply_created
           "HTTP/1.1 201 Created" "{id:1}").
  - reflexivity.
  - exact framed_get_widgets.
  - apply machine_reachable.
  - reflexivity.
  - apply Nat.ltb_lt. reflexivity.
  - reflexivity.
  - intros h' r' E.
    exact (strstr_found_is_first (CRLF ++ CRLF) (c_str reply_created)
             ((CRLF ++ CRLF) ++ "{id:1}") eq_refl h' r' E).
Defined.

(** C3, with the body read as everything after the separator, fails on a
    reply with a NUL byte behind the separator: the body stops at that byte. *)
Lemma proxy_reply_with_nul_counterexample :
  reply_with_nul = "HTTP/1.1 200 OK" ++ (CRLF ++ CRLF) ++ "ab" ++ String NUL "cd" /\
  fst (run (request_handler 1024 4096 "."
              (machine no_files "" (Some reply_with_nul))
              (request "GET" "/api/widgets" ""))) =
  Done (response_builder 200 "OK" "ab") /\
  "ab" <> "ab" ++ String NUL "cd".
Proof.
  split; [reflexivity|]. split; [vm_compute; reflexivity | discriminate].
Qed.

Lemma proxy_reply_without_separator_is_body_witness :
  fst (run (request_handler 1024 4096 "."
              (machine no_files "" (Some "pong"))
              (request "GET" "/api/widgets" ""))) =
  Done (response_builder 200 "OK" (c_str "pong")) /\
  (has_nul "pong" = false -> c_str "pong" = "pong").
Proof.
  apply (proxy_reply_without_separator_is_body 1024 4096 "."
           buffer_1024_int (machine no_files "" (Some "pong"))
           (request "GET" "/api/widgets" "") 4 "pong").
  - reflexivity.
  - exact framed_get_widgets.
  - apply machine_reachable.
  - reflexivity.
  - apply Nat.ltb_lt. reflexivity.
  - exact (strstr_none_inv (CRLF ++ CRLF) (c_str "pong") eq_refl).
Defined.

(** C9, with the body read as the entire reply, fails on a reply without
    separator that holds a NUL byte: the body is the part before that byte. *)
Lemma proxy_bare_reply_with_nul_counterexample :
  strstr reply_bare_with_nul (CRLF ++ CRLF) = None /\
  fst (run (request_handler 1024 4096 "."
              (machine no_files "" (Some reply_bare_with_nul))
              (request "GET" "/api/widgets" ""))) =
  Done (response_builder 200 "OK" "ab") /\
  "ab" <> reply_bare_with_nul.
Proof.
  split; [reflexivity|]. split; [vm_compute; reflexivity | discriminate].
Qed.

Lemma proxy_sends_head_without_body_witness :
  exists t,
    trace (snd (run (request_handler 1024 4096 "."
                       (machine no_files "" (Some reply_created))
                       (request "POST" "/api/x" "hello")))) =
    EvGetaddrinfo "localhost" "8000" hints_inet_stream
    :: EvSocket AF_INET SOCK_STREAM 4
    :: EvConnect 4
    :: EvFreeaddrinfo
    :: EvSend 4 ("POST /x HTTP/1.1" ++ CRLF ++ "Host: localhost" ++ CRLF
                 ++ "Content-Length: 5" ++ CRLF
                 ++ "Connection: close" ++ CRLF ++ CRLF)
    :: EvRecv 4
    :: t /\
    (t = [] \/ t = [EvClose 4]).
Proof.
  exact (proxy_sends_head_without_body 1024 4096 "." buffer_1024_int
           (machine no_files "" (Some reply_created))
           (request "POST" "/api/x" "hello") 4
           eq_refl framed_post_hello
           (machine_reachable no_files "" (Some reply_created))).
Defined.

Lemma proxy_read_failure_leaves_socket_open_witness :
  let result := run (request_handler 1024 4096 "." (machine no_files "" None)
                       (request "GET" "/api/widgets" "")) in
  fst result =
    Done (response_builder 502 "Bad Gateway"
            "<h1>502 Bad Gateway: Failed to Read from Backend</h1>") /\
  trace (snd result) =
    [EvGetaddrinfo "localhost" "8000" hints_inet_stream;
     EvSocket AF_INET SOCK_STREAM 4; EvConnect 4; EvFreeaddrinfo;
     EvSend 4 (outbound_head (request "GET" "/api/widgets" ""));
     EvRecv 4] /\
  existsb (event_is_close 4) (trace (snd result)) = false /\
  lookup_fd 4 (fds (snd result)) = Some SocketDesc.
Proof.
  exact (proxy_read_failure_leaves_socket_open 1024 4096 "." buffer_1024_int
           (machine no_files "" None) (request "GET" "/api/widgets" "") 4
           eq_refl framed_get_widgets (machine_reachable no_files "" None)
           eq_refl).
Defined.

Example proxy_backend_down_is_502 :
  exists s' t,
    request_handler 1024 4096 "." (machine_backend_down no_files)
                    (request "GET" "/api/widgets" "") initial_state =
    (Done (response_builder 502 "Bad Gateway"
             "<h1>502 Bad Gateway: Backend Unavailable</h1>"), s') /\
    trace s' =
    (trace initial_state
     ++ EvGetaddrinfo "localhost" "8000"
          {| ai_family := AF_INET; ai_socktype := SOCK_STREAM |} :: t)%list /\
    (t = [] \/
     t = [EvSocket AF_INET SOCK_STREAM (-1); EvFreeaddrinfo] \/
     exists sock, t = [EvSocket AF_INET SOCK_STREAM sock; EvConnect sock;
                       EvFreeaddrinfo]).
Proof.
  apply (proxy_backend_unreachable_is_502 1024 4096 "." buffer_1024_int
           (machine_backend_down no_files) (request "GET" "/api/widgets" "")
           "widgets" initial_state).
  - reflexivity.
  - exact framed_get_widgets.
  - right. right. discriminate.
Qed.

Lemma proxy_oversized_request_overflows_witness :
  request_handler 1024 4096 "." (machine_backend_down no_files)
                  (request "POST" "/api/upload" (letters 990)) initial_state =
  (Undefined "strncat writes past the end of the array", initial_state).
Proof.
  apply (proxy_oversized_request_overflows 1024 4096 "." buffer_1024_int
           (machine_backend_down no_files)
           (request "POST" "/api/upload" (letters 990)) initial_state).
  - reflexivity.
  - apply Nat.leb_le. reflexivity.
  - apply Nat.ltb_lt. reflexivity.
  - apply Nat.ltb_lt. reflexivity.
Defined.

Lemma launch_reports_bind_and_listen_failure_witness :
  (exists code t,
     run (launch 1024 4096 "." (-1) (-2) sample_parse sample_serialize
                 host_bind_fails) =
     (Done (Returned code), {| fds := []; trace := t |}) /\
     existsb event_is_accept t = false /\
     ((bind_result host_bind_fails < 0)%Z -> code = (-1)%Z /\ t = [EvBind]) /\
     ((0 <= bind_result host_bind_fails)%Z ->
        code = (-2)%Z /\ t = [EvBind; EvListen])) /\
  (exists code t,
     run (launch 1024 4096 "." (-1) (-2) sample_parse sample_serialize
                 host_listen_fails) =
     (Done (Returned code), {| fds := []; trace := t |}) /\
     existsb event_is_accept t = false /\
     ((bind_result host_listen_fails < 0)%Z -> code = (-1)%Z /\ t = [EvBind]) /\
     ((0 <= bind_result host_listen_fails)%Z ->
        code = (-2)%Z /\ t = [EvBind; EvListen])).
Proof.
  split.
  - apply (launch_reports_bind_and_listen_failure 1024 4096 "." (-1) (-2)
             sample_parse sample_serialize host_bind_fails).
    left. reflexivity.
  - apply (launch_reports_bind_and_listen_failure 1024 4096 "." (-1) (-2)
             sample_parse sample_serialize host_listen_fails).
    right. reflexivity.
Defined.

(** A head that does not fit the buffer is cut by [snprintf] without any
    error: with a 16-byte buffer and no backend the answer is the 502 of
    the failed connection, not a 500. *)
Example proxy_small_buffer_is_not_500 :
  fst (run (request_handler 16 4096 "." (machine_backend_down no_files)
              (request "GET" "/api/widgets" ""))) =
  Done (response_builder 502 "Bad Gateway"
          "<h1>502 Bad Gateway: Backend Unavailable</h1>").
Proof. vm_compute. reflexivity. Qed.

(** The exchanges of the specification's scenarios. *)
Example scenario_static_index :
  fst (run (request_handler 1024 4096 "."
              (machine (one_file "/srv/www//static/index.html" "<p>hi</p>")
                       (zeros 1024) None)
              (request "GET" "/static/index.html" ""))) =
  Done (response_builder 200 "OK" "<p>hi</p>").
Proof. vm_compute. reflexivity. Qed.

Example scenario_unknown :
  fst (run (request_handler 1024 4096 "." (machine no_files "" None)
              (request "GET" "/unknown" ""))) =
  Done (response_builder 404 "Not Found" "<h1>404 Not Found</h1>").
Proof. vm_compute. reflexivity. Qed.

(** ** The further properties at concrete requests *)

Lemma connect_failure_leaves_socket_open_witness :
  connect_to_backend machine_connect_refused "localhost" "8000" initial_state =
  (Done (-1)%Z,
   {| fds := [(4%Z, SocketDesc)];
      trace := [EvGetaddrinfo "localhost" "8000" hints_inet_stream;
                EvSocket AF_INET SOCK_STREAM 4; EvConnect 4; EvFreeaddrinfo] |}).
Proof.
  apply (connect_failure_leaves_socket_open machine_connect_refused
           "localhost" "8000" 4 initial_state).
  - reflexivity.
  - reflexivity.
  - discriminate.
Defined.

Lemma static_open_failure_is_404_witness :
  run (request_handler 1024 4096 "." (machine_no_descriptor index_file)
                       (request "GET" "/static/index.html" "")) =
  (Done (response_builder 404 "Not Found" "<h1>404 Not Found</h1>"),
   {| fds := [];
      trace := [EvAccess "/srv/www//static/index.html";
                EvOpen "/srv/www//static/index.html" (-1)] |}).
Proof.
  apply (static_open_failure_is_404 1024 4096 "."
           (machine_no_descriptor index_file)
           (request "GET" "/static/index.html" "") "/srv/www" "<p>hi</p>").
  - reflexivity.
  - reflexivity.
  - vm_compute. discriminate.
  - reflexivity.
  - reflexivity.
Defined.

Lemma static_responder_keeps_descriptors_witness :
  fds {| fds := [(9%Z, SocketDesc)];
         trace := [EvAccess "/srv/www//static/index.html";
                   EvOpen "/srv/www//static/index.html" 3; EvRead 3; EvClose 3] |} =
  fds state_holding_9.
Proof.
  apply (static_responder_keeps_descriptors 1024 4096 "."
           (machine index_file (zeros 1024) None)
           (request "GET" "/static/index.html" "")
           state_holding_9 _ (response_builder 200 "OK" "<p>hi</p>")).
  - reflexivity.
  - intros n H. injection H as <-. reflexivity.
  - vm_compute. reflexivity.
Defined.

Lemma static_file_is_cut_at_first_nul_witness :
  fst (run (request_handler 1024 4096 "."
              (machine (one_file "/srv/www//static/logo.png"
                                 ("ab" ++ String NUL "cd"))
                       stale_stack None)
              (request "GET" "/static/logo.png" ""))) =
  Done (response_builder 200 "OK" "ab").
Proof.
  apply (static_file_is_cut_at_first_nul 1024 4096 "."
           (machine (one_file "/srv/www//static/logo.png"
                              ("ab" ++ String NUL "cd"))
                    stale_stack None)
           (request "GET" "/static/logo.png" "") "/srv/www" "ab" "cd" 3).
  - reflexivity.
  - reflexivity.
  - vm_compute. discriminate.
  - reflexivity.
  - reflexivity.
  - reflexivity.
  - apply Nat.ltb_lt. reflexivity.
Defined.

Lemma static_file_filling_buffer_overruns_witness :
  run (request_handler 1024 4096 "."
         (machine (one_file "/srv/www//static/big.txt" (letters 1024))
                  (zeros 1024) None)
         (request "GET" "/static/big.txt" "")) =
  (Undefined "string read runs past the end of the array",
   {| fds := [(3%Z, FileDesc (letters 1024))];
      trace := [EvAccess "/srv/www//static/big.txt";
                EvOpen "/srv/www//static/big.txt" 3; EvRead 3] |}).
Proof.
  apply (static_file_filling_buffer_overruns 1024 4096 "."
           (machine (one_file "/srv/www//static/big.txt" (letters 1024))
                    (zeros 1024) None)
           (request "GET" "/static/big.txt" "") "/srv/www" (letters 1024) 3).
  - reflexivity.
  - reflexivity.
  - vm_compute. discriminate.
  - reflexivity.
  - reflexivity.
  - apply Nat.leb_le. reflexivity.
  - reflexivity.
Defined.

Lemma static_long_paths_are_cut_witness :
  request_handler 1024 24 "." (machine index_file (zeros 1024) None)
                  (request "GET" "/static/index.html" "") initial_state =
  request_handler 1024 24 "." (machine index_file (zeros 1024) None)
                  (request "GET" "/static/index.php" "") initial_state.
Proof.
  apply (static_long_paths_are_cut 1024 24 "."
           (machine index_file (zeros 1024) None)
           (request "GET" "/static/index.html" "")
           (request "GET" "/static/index.php" "") "/srv/www" initial_state).
  - reflexivity.
  - reflexivity.
  - reflexivity.
  - vm_compute. discriminate.
  - vm_compute. discriminate.
  - reflexivity.
Defined.

Lemma unproxied_answer_depends_on_path_only_witness :
  request_handler 1024 4096 "." (machine index_file (zeros 1024) None)
                  (request "GET" "/static/index.html" "") initial_state =
  request_handler 1024 4096 "." (machine index_file (zeros 1024) None)
                  (request "DELETE" "/static/index.html" "now") initial_state.
Proof.
  apply (unproxied_answer_depends_on_path_only 1024 4096 "."
           (machine index_file (zeros 1024) None)
           (request "GET" "/static/index.html" "")
           (request "DELETE" "/static/index.html" "now") initial_state).
  - reflexivity.
  - intro H. vm_compute in H. discriminate.
Defined.

Lemma handler_answers_200_or_fixed_error_witness :
  In (response_builder 403 "Forbidden" "<h1>403 Forbidden</h1>") error_responses \/
  (status_code (response_builder 403 "Forbidden" "<h1>403 Forbidden</h1>") = 200%Z /\
   status_text (response_builder 403 "Forbidden" "<h1>403 Forbidden</h1>") = "OK").
Proof.
  apply (handler_answers_200_or_fixed_error 1024 4096 "."
           (machine no_files "" None) (request "GET" "/static/nope.html" "")
           initial_state
           {| fds := []; trace := [EvAccess "/srv/www//static/nope.html"] |}).
  vm_compute. reflexivity.
Defined.

Lemma proxy_500_only_beyond_int_witness :
  status_code (response_builder 200 "OK" "{id:1}") <> 500%Z.
Proof.
  destruct (proxy_500_only_beyond_int 1024 4096 "."
              (machine no_files "" (Some reply_created))
              (request "GET" "/api/widgets" "") initial_state) as [_ H].
  - reflexivity.
  - apply Nat.leb_le. reflexivity.
  - apply (H ltac:(vm_compute; discriminate)
             (response_builder 200 "OK" "{id:1}")
             {| fds := [];
                trace := [EvGetaddrinfo "localhost" "8000" hints_inet_stream;
                          EvSocket AF_INET SOCK_STREAM 4; EvConnect 4;
                          EvFreeaddrinfo;
                          EvSend 4 (outbound_head (request "GET" "/api/widgets" ""));
                          EvRecv 4; EvClose 4] |}).
    vm_compute. reflexivity.
Defined.

Lemma proxy_reply_filling_buffer_overruns_witness :
  run (request_handler 1024 4096 "."
         (machine no_files "" (Some (letters 1024)))
         (request "GET" "/api/widgets" "")) =
  (Undefined "terminator written past the end of the array",
   {| fds := [(4%Z, SocketDesc)];
      trace := [EvGetaddrinfo "localhost" "8000" hints_inet_stream;
                EvSocket AF_INET SOCK_STREAM 4; EvConnect 4; EvFreeaddrinfo;
                EvSend 4 (outbound_head (request "GET" "/api/widgets" ""));
                EvRecv 4] |}).
Proof.
  apply (proxy_reply_filling_buffer_overruns 1024 4096 "." buffer_1024_int
           (machine no_files "" (Some (letters 1024)))
           (request "GET" "/api/widgets" "") 4 (letters 1024)).
  - reflexivity.
  - exact framed_get_widgets.
  - apply machine_reachable.
  - reflexivity.
  - apply Nat.leb_le. reflexivity.
Defined.

Lemma proxy_long_head_send_overruns_witness :
  run (request_handler 16 4096 "." (machine no_files "" (Some reply_created))
                       (request "GET" "/api/widgets" "")) =
  (Undefined "send reads past the end of the array",
   {| fds := [(4%Z, SocketDesc)];
      trace := [EvGetaddrinfo "localhost" "8000" hints_inet_stream;
                EvSocket AF_INET SOCK_STREAM 4; EvConnect 4; EvFreeaddrinfo] |}).
Proof.
  apply (proxy_long_head_send_overruns 16 4096 "."
           (machine no_files "" (Some reply_created))
           (request "GET" "/api/widgets" "") 4).
  - reflexivity.
  - apply Nat.leb_le. reflexivity.
  - apply Nat.ltb_lt. reflexivity.
  - apply Nat.ltb_lt. reflexivity.
  - vm_compute. discriminate.
  - reflexivity.
  - apply machine_reachable.
Defined.

Lemma launch_returns_only_startup_errors_witness :
  ((bind_result host_listen_fails < 0)%Z /\ (-2)%Z = (-1)%Z /\
   [EvBind; EvListen] = [EvBind]) \/
  ((0 <= bind_result host_listen_fails)%Z /\ (listen_result host_listen_fails < 0)%Z /\
   (-2)%Z = (-2)%Z /\ [EvBind; EvListen] = [EvBind; EvListen]).
Proof.
  apply (launch_returns_only_startup_errors 1024 4096 "." (-1) (-2)
           line_parse sample_serialize host_listen_fails (-2)
           {| fds := []; trace := [EvBind; EvListen] |}).
  reflexivity.
Defined.



Lemma bad_gateway_names_the_failed_step_witness :
  proxied (request "GET" "/api/widgets" "") /\
  ((response_body (response_builder 502 "Bad Gateway"
                     "<h1>502 Bad Gateway: Backend Unavailable</h1>") =
    "<h1>502 Bad Gateway: Backend Unavailable</h1>" /\
    backend_unreachable (machine_backend_down no_files)) \/
   (response_body (response_builder 502 "Bad Gateway"
                     "<h1>502 Bad Gateway: Backend Unavailable</h1>") =
    "<h1>502 Bad Gateway: Failed to Read from Backend</h1>" /\
    (exists sock, backend_reachable (machine_backend_down no_files) sock) /\
    recv_data (machine_backend_down no_files) = None)).
Proof.
  apply (bad_gateway_names_the_failed_step 1024 4096 "."
           (machine_backend_down no_files) (request "GET" "/api/widgets" "")
           initial_state
           {| fds := [(4%Z, SocketDesc)];
              trace := [EvGetaddrinfo "localhost" "8000" hints_inet_stream;
                        EvSocket AF_INET SOCK_STREAM 4; EvConnect 4;
                        EvFreeaddrinfo] |}).
  - vm_compute. reflexivity.
  - reflexivity.
Defined.

Lemma static_errors_name_their_cause_witness :
  static_request (request "GET" "/static/nope.html" "") /\
  exists root,
    realpath (machine no_files "" None) "." = Some root /\
    forall content,
      fs (machine no_files "" None)
         (static_filepath 4096 root (request "GET" "/static/nope.html" ""))
      <> Regular content.
Proof.
  destruct (static_errors_name_their_cause 1024 4096 "."
              (machine no_files "" None) (request "GET" "/static/nope.html" "")
              initial_state
              {| fds := []; trace := [EvAccess "/srv/www//static/nope.html"] |}
              (response_builder 403 "Forbidden" "<h1>403 Forbidden</h1>"))
    as [H _].
  - vm_compute. reflexivity.
  - apply H. reflexivity.
Defined.

Lemma ok_follows_a_file_or_a_reply_witness :
  (static_request (request "GET" "/api/widgets" "") /\
   exists root content,
     realpath (machine no_files "" (Some reply_created)) "." = Some root /\
     fs (machine no_files "" (Some reply_created))
        (static_filepath 4096 root (request "GET" "/api/widgets" ""))
     = Regular content) \/
  (proxied (request "GET" "/api/widgets" "") /\
   (exists sock, backend_reachable (machine no_files "" (Some reply_created)) sock) /\
   exists reply, recv_data (machine no_files "" (Some reply_created)) = Some reply).
Proof.
  apply (ok_follows_a_file_or_a_reply 1024 4096 "."
           (machine no_files "" (Some reply_created))
           (request "GET" "/api/widgets" "") initial_state
           {| fds := [];
              trace := [EvGetaddrinfo "localhost" "8000" hints_inet_stream;
                        EvSocket AF_INET SOCK_STREAM 4; EvConnect 4;
                        EvFreeaddrinfo;
                        EvSend 4 (outbound_head (request "GET" "/api/widgets" ""));
                        EvRecv 4; EvClose 4] |}
           (response_builder 200 "OK" "{id:1}")).
  - vm_compute. reflexivity.
  - reflexivity.
Defined.
